(** * Platform Analyzer frontend: trust-score display, disclosure gating,
      comment form and live statistics

    A shallow embedding of the decision logic of the React components
    (App.tsx, LegitimacyAnalyzer.tsx, JobAnalyzer.tsx, CommentsSection.tsx,
    DynamicStats.tsx).  Component state is a record, an event handler is a
    function from the state to the next state together with the requests
    it dispatches, and the JSX a component returns is a list of typed
    blocks.  JavaScript numbers that carry a score or a statistic are
    IEEE 754 binary64 values; counters, indices and star ratings, which
    only ever hold small integers, are integers. *)

From Stdlib Require Import ZArith List String Ascii Bool Lia QArith.
From Stdlib Require Import Floats.SpecFloat DecimalString.
From Stdlib Require Import Sorted.
From coqutil Require Import Datatypes.RecordSetters.
Import ListNotations.
Import OCamlLikeNotations.

Open Scope string_scope.
Open Scope Z_scope.

(* ================================================================== *)
(** * The JavaScript runtime the components rely on *)
(* ================================================================== *)

Module JS.

(** A JavaScript number is a binary64 float. *)
Definition number : Type := spec_float.

Definition prec : Z := 53.
Definition emax : Z := 1024.

Definition NaN : number := S754_nan.
Definition Infinity : number := S754_infinity false.

(** The number denoted by an integer literal. *)
Definition of_Z (z : Z) : number := binary_normalize prec emax z 0 false.

(** The number denoted by the decimal literal [s]e[j], [s] positive. *)
Definition of_decimal (s : Z) (j : Z) : number :=
  if 0 <=? j then of_Z (s * 10 ^ j)
  else SFdiv prec emax (S754_finite false (Z.to_pos s) 0)
                       (S754_finite false (Z.to_pos (10 ^ (- j))) 0).

(** [x >= y], [x < y], [x / y] and [x === y] on numbers. *)
Definition ge (x y : number) : bool := SFleb y x.
Definition lt (x y : number) : bool := SFltb x y.
Definition gt (x y : number) : bool := SFltb y x.
Definition div (x y : number) : number := SFdiv prec emax x y.
Definition strict_eq (x y : number) : bool := SFeqb x y.

Definition is_finite (x : number) : bool :=
  match x with
  | S754_zero _ | S754_finite _ _ _ => true
  | S754_infinity _ | S754_nan => false
  end.

(** ToBoolean on a string: only the empty string is falsy. *)
Definition truthy (s : string) : bool := negb (String.eqb s "").

(** [l[i]] on an array: [undefined] outside the array. *)
Definition index {A : Type} (l : list A) (i : Z) : option A :=
  if i <? 0 then None else nth_error l (Z.to_nat i).

(** ** Completions: a call returns normally or throws *)

Inductive exn : Type :=
| RangeError (msg : string)
| TypeError (msg : string)
| ReferenceError (msg : string).

Inductive completion (A : Type) : Type :=
| Normal (a : A)
| Throw (e : exn).

Arguments Normal {A} a.
Arguments Throw {A} e.

Definition bind {A B : Type} (c : completion A) (k : A -> completion B)
  : completion B :=
  match c with
  | Normal a => k a
  | Throw e => Throw e
  end.

(** [try { body } catch { handler }]: the handler ignores the exception. *)
Definition try_catch {A : Type} (body : completion A) (handler : completion A)
  : completion A :=
  match body with
  | Normal a => Normal a
  | Throw _ => handler
  end.

(** ** Number::toString and Number.prototype.toFixed *)

(** The exact value [m * 2^e] of a finite float as a fraction. *)
Definition exact (m : positive) (e : Z) : Z * Z :=
  if 0 <=? e then (Zpos m * 2 ^ e, 1) else (Zpos m, 2 ^ (- e)).

(** The fraction [num/den * 10^j]. *)
Definition scale10 (nd : Z * Z) (j : Z) : Z * Z :=
  let '(num, den) := nd in
  if 0 <=? j then (num * 10 ^ j, den) else (num, den * 10 ^ (- j)).

(** [num/den < 10^n] *)
Definition below_pow10 (nd : Z * Z) (n : Z) : bool :=
  let '(a, b) := scale10 nd (- n) in a <? b.

(** The least [n] from [start] on with [num/den < 10^n]. *)
Fixpoint decimal_exponent_from (fuel : nat) (nd : Z * Z) (start : Z) : Z :=
  match fuel with
  | O => start
  | S fuel' =>
      if below_pow10 nd start then start
      else decimal_exponent_from fuel' nd (start + 1)
  end.

Definition decimal_exponent (nd : Z * Z) : Z :=
  decimal_exponent_from 640 nd (-324).

Definition digits_of (z : Z) : string :=
  NilZero.string_of_uint (N.to_uint (Z.to_N z)).

Fixpoint zeros (n : nat) : string :=
  match n with
  | O => ""
  | S n' => "0" ++ zeros n'
  end.

(** The [k]-digit decimals next to [x = num/den], nearest first (the even
    one first on a tie), as pairs [(s, n)] standing for [s * 10^(n-k)]. *)
Definition shortest_candidates (nd : Z * Z) (n0 k : Z) : list (Z * Z) :=
  let '(a, b) := scale10 nd (k - n0) in
  let lo := a / b in
  let hi := lo + 1 in
  let c_lo := if 10 ^ (k - 1) <=? lo then [(lo, n0)] else [] in
  let c_hi := if hi =? 10 ^ k then [(10 ^ (k - 1), n0 + 1)] else [(hi, n0)] in
  match 2 * (a - lo * b) ?= b with
  | Lt => (c_lo ++ c_hi)%list
  | Gt => (c_hi ++ c_lo)%list
  | Eq => if Z.even lo then (c_lo ++ c_hi)%list else (c_hi ++ c_lo)%list
  end.

Definition round_trips (x : number) (k : Z) (c : Z * Z) : bool :=
  let '(s, n) := c in SFeqb (of_decimal s (n - k)) x.

(** The least number of digits [k] (from [k] on) and the digits [s] and
    exponent [n] with which [s * 10^(n-k)] reads back as [x]. *)
Fixpoint shortest_from (fuel : nat) (x : number) (nd : Z * Z) (n0 k : Z)
  : Z * Z * Z :=
  let cs := shortest_candidates nd n0 k in
  match find (round_trips x k) cs with
  | Some (s, n) => (s, k, n)
  | None =>
      match fuel with
      | O => (fst nd * 10 ^ (k - n0) / snd nd, k, n0)
      | S fuel' => shortest_from fuel' x nd n0 (k + 1)
      end
  end.

Definition format_shortest (snk : Z * Z * Z) : string :=
  let '(s, k, n) := snk in
  let ds := digits_of s in
  if (k <=? n) && (n <=? 21) then ds ++ zeros (Z.to_nat (n - k))
  else if (0 <? n) && (n <=? 21) then
    substring 0 (Z.to_nat n) ds ++ "." ++
    substring (Z.to_nat n) (Z.to_nat (k - n)) ds
  else if (-6 <? n) && (n <=? 0) then "0." ++ zeros (Z.to_nat (- n)) ++ ds
  else
    let e := n - 1 in
    let es := (if e <? 0 then "-" else "+") ++ digits_of (Z.abs e) in
    if k =? 1 then ds ++ "e" ++ es
    else substring 0 1 ds ++ "." ++ substring 1 (Z.to_nat (k - 1)) ds
         ++ "e" ++ es.

(** [String(x)], that is Number::toString(x) in radix 10. *)
Definition to_string (x : number) : string :=
  match x with
  | S754_nan => "NaN"
  | S754_zero _ => "0"
  | S754_infinity s => if s then "-Infinity" else "Infinity"
  | S754_finite s m e =>
      let nd := exact m e in
      let n0 := decimal_exponent nd in
      (if s then "-" else "") ++
      format_shortest
        (shortest_from 17 (S754_finite false m e) nd n0 1)
  end.

(** The digits of [x.toFixed(f)] for a finite non-negative [x = num/den]
    below [10^21]: the integer [n] nearest to [x * 10^f], the larger one on
    a tie, with a point before its last [f] digits. *)
Definition fixed_digits (nd : Z * Z) (f : Z) : string :=
  let '(a, b) := scale10 nd f in
  let n := (2 * a + b) / (2 * b) in
  let m := digits_of n in
  if f =? 0 then m
  else
    let k := Z.of_nat (String.length m) in
    let m' := if k <=? f then zeros (Z.to_nat (f + 1 - k)) ++ m else m in
    let k' := if k <=? f then f + 1 else k in
    substring 0 (Z.to_nat (k' - f)) m' ++ "." ++
    substring (Z.to_nat (k' - f)) (Z.to_nat f) m'.

(** [x.toFixed(fractionDigits)]. *)
Definition toFixed (x : number) (fractionDigits : Z) : completion string :=
  if (fractionDigits <? 0) || (100 <? fractionDigits) then
    Throw (RangeError "toFixed() digits argument must be between 0 and 100")
  else
    match x with
    | S754_nan | S754_infinity _ => Normal (to_string x)
    | S754_zero _ => Normal (fixed_digits (0, 1) fractionDigits)
    | S754_finite s m e =>
        let nd := exact m e in
        let sign := if s then "-" else "" in
        if below_pow10 nd 21 then
          Normal (sign ++ fixed_digits nd fractionDigits)
        else Normal (sign ++ to_string (S754_finite false m e))
    end.

(** [|x| < 10^21] for a finite [x]: the numbers toFixed prints in
    positional notation. *)
Definition below_1e21 (x : number) : bool :=
  match x with
  | S754_finite _ m e => below_pow10 (exact m e) 21
  | S754_zero _ => true
  | S754_infinity _ | S754_nan => false
  end.

(** WhiteSpace and LineTerminator among the code units below 256 (a string
    is the sequence of its code units, here those of one byte): TAB, LF,
    VT, FF, CR, SP and NBSP. *)
Definition is_whitespace (c : ascii) : bool :=
  let n := nat_of_ascii c in
  (n =? 9)%nat || (n =? 10)%nat || (n =? 11)%nat || (n =? 12)%nat
  || (n =? 13)%nat || (n =? 32)%nat || (n =? 160)%nat.

Fixpoint trimStart (s : string) : string :=
  match s with
  | EmptyString => EmptyString
  | String c s' => if is_whitespace c then trimStart s' else s
  end.

Fixpoint trimEnd (s : string) : string :=
  match s with
  | EmptyString => EmptyString
  | String c s' =>
      match trimEnd s' with
      | EmptyString => if is_whitespace c then EmptyString
                       else String c EmptyString
      | t => String c t
      end
  end.

(** [s.trim()] *)
Definition trim (s : string) : string := trimEnd (trimStart s).

End JS.

(* ================================================================== *)
(** * Types and helpers shared by the analyzers *)
(* ================================================================== *)

Inductive FindingType : Type := critical | warning | info.

Record Finding : Type := { type : FindingType; text : string }.

(** The signed-in user ([any] in the source); [null] is [None]. *)
Record User : Type := { name : string; email : string }.

(** [getScoreColor], the same text in App.tsx, LegitimacyAnalyzer.tsx and
    JobAnalyzer.tsx. *)
Definition getScoreColor (score : JS.number) : string :=
  if JS.ge score (JS.of_Z 70) then "from-emerald-500 to-green-600"
  else if JS.ge score (JS.of_Z 40) then "from-yellow-500 to-orange-500"
  else "from-red-500 to-rose-600".

(** How a fetch that was awaited settles. *)
Inductive settled (A : Type) : Type :=
| ResponseOk (data : A)
| ResponseNotOk (detail : string)
| Rejected (message : string).

Arguments ResponseOk {A} data.
Arguments ResponseNotOk {A} detail.
Arguments Rejected {A} message.

(** The two localStorage items of the session; [getItem] is [null] for a
    missing item. *)
Record Storage : Type :=
  { auth_token : option string; stored_user : option string }.

Definition clearedStorage : Storage :=
  {| auth_token := None; stored_user := None |}.

(** [token && savedUser] on the two items read from localStorage: the
    token when both are non-empty strings. *)
Definition storedSession (st : Storage) : option string :=
  match auth_token st, stored_user st with
  | Some token, Some savedUser =>
      if JS.truthy token && JS.truthy savedUser then Some token else None
  | _, _ => None
  end.

(* ================================================================== *)
(** * LegitimacyAnalyzer.tsx *)
(* ================================================================== *)

Module LegitimacyAnalyzer.

Record AnalysisStep : Type := { icon : string; label : string; delay : Z }.

Record WHOISData : Type :=
  { registrar : string; owner : string; email : string; lastUpdated : string }.

Record ContentAnalysis : Type :=
  { aboutUsFound : bool; termsOfServiceFound : bool; contactInfoFound : bool;
    physicalAddressFound : bool; teamPhotosAnalyzed : bool;
    stockImagesDetected : bool }.

Record SocialData : Type :=
  { redditMentions : JS.number; twitterMentions : JS.number;
    trustpilotScore : JS.number; scamAdvisorScore : JS.number }.

Record PonziCalculation : Type :=
  { promisedReturn : string; yearlyEquivalent : string;
    sustainability : string; collapseDays : string }.

Record Sentiment : Type :=
  { positive : JS.number; neutral : JS.number; negative : JS.number }.

Record PeopleExperience : Type :=
  { experienceScore : JS.number; userExperienceRating : string;
    hasTestimonials : bool; hasSocialProof : bool; hasSupport : bool }.

Record AnalysisResult : Type :=
  { url : string;
    trustScore : JS.number;
    verdict : string;
    domainAge : string;
    domainRegistered : string;
    sslStatus : string;
    serverLocation : string;
    whoisData : WHOISData;
    contentAnalysis : ContentAnalysis;
    socialData : SocialData;
    withdrawalComplaints : JS.number;
    findings : list Finding;
    sentiment : Sentiment;
    redFlags : list string;
    ponziCalculation : option PonziCalculation;
    scamProbability : string;
    recommendation : string;
    aiAnalysis : option string;
    peopleExperience : option PeopleExperience }.

Record Testimonial : Type :=
  { t_text : string; author : string; rating : Z }.

(** The component's [useState] cells; [st_url] is the [url] input. *)
Record State : Type :=
  { st_url : string;
    analyzing : bool;
    result : option AnalysisResult;
    analysisSteps : list AnalysisStep;
    currentTestimonial : Z;
    error : option string;
    showAuthModal : bool;
    user : option User;
    hasScrolledToResults : bool }.

Definition initial (sharedUser : option User) : State :=
  {| st_url := ""; analyzing := false; result := None; analysisSteps := [];
     currentTestimonial := 0; error := None; showAuthModal := false;
     user := sharedUser; hasScrolledToResults := false |}.

Definition testimonials : list Testimonial :=
  [ {| t_text := "This tool saved me from losing $5,000 to a fake investment platform!";
       author := "Sarah M."; rating := 5 |};
    {| t_text := "Detected a Ponzi scheme in seconds. Absolutely incredible AI analysis!";
       author := "Michael R."; rating := 5 |};
    {| t_text := "The best scam detection tool I've ever used. Highly recommended!";
       author := "Jennifer L."; rating := 5 |};
    {| t_text := "Caught red flags I completely missed. This platform is a lifesaver!";
       author := "David K."; rating := 5 |} ].

Definition steps : list AnalysisStep :=
  [ {| icon := "Globe"; label := "Performing WHOIS lookup..."; delay := 500 |};
    {| icon := "Shield"; label := "Checking SSL certificate..."; delay := 700 |};
    {| icon := "Database"; label := "Analyzing domain history..."; delay := 900 |};
    {| icon := "Image"; label := "Scanning for stock images..."; delay := 1100 |};
    {| icon := "Users"; label := "Scraping social media mentions..."; delay := 1300 |};
    {| icon := "FileText"; label := "Extracting website content..."; delay := 1500 |};
    {| icon := "Activity"; label := "Running AI sentiment analysis..."; delay := 1700 |};
    {| icon := "DollarSign"; label := "Calculating financial viability..."; delay := 1900 |} ].

(** What a handler hands to the browser. *)
Inductive effect : Type :=
| SetTimeout (ms : Z) (step : AnalysisStep)
| PostAnalyze (body_url : string)
| RemoveStoredSession
| NotifyAuthSuccess (authUser : User)
| NotifyLogout.

(** The timer callback [setCurrentTestimonial(prev => (prev + 1) % length)]. *)
Definition rotateTestimonial (s : State) : State :=
  { s with currentTestimonial :=
      Z.rem (currentTestimonial s + 1) (Z.of_nat (List.length testimonials)) }.

Definition handleAuthSuccess (authUser : User) (s : State)
  : State * list effect :=
  ({ s with user := Some authUser; showAuthModal := false },
   [NotifyAuthSuccess authUser]).

Definition handleLogout (s : State) : State * list effect :=
  ({ s with user := None; result := None },
   [RemoveStoredSession; NotifyLogout]).

(** [analyzeWebsite] up to its first [await]. *)
Definition analyzeWebsite (s : State) : State * list effect :=
  if negb (JS.truthy (st_url s)) then (s, [])
  else
    ({ s with analyzing := true; analysisSteps := []; result := None;
              error := None },
     (map (fun step => SetTimeout (delay step) step) steps
      ++ [PostAnalyze (st_url s)])%list).

(** A step timer fires: [setAnalysisSteps(prev => [...prev, step])]. *)
Definition stepTimerFired (step : AnalysisStep) (s : State) : State :=
  { s with analysisSteps := (analysisSteps s ++ [step])%list }.

(** [analyzeWebsite] after the response and the step timers have settled. *)
Definition analyzeWebsiteSettled (r : settled AnalysisResult) (s : State)
  : State :=
  match r with
  | ResponseOk data => { s with result := Some data; analyzing := false }
  | ResponseNotOk detail =>
      { s with error := Some detail; analyzing := false; analysisSteps := [] }
  | Rejected message =>
      { s with error := Some message; analyzing := false; analysisSteps := [] }
  end.

(** The scroll listener, installed only while [result && !user &&
    !hasScrolledToResults]; [past] says the page is scrolled more than 400
    pixels below the trust-score section. *)
Definition handleScroll (past : bool) (s : State) : State :=
  match result s, user s, hasScrolledToResults s with
  | Some _, None, false =>
      if past then { s with showAuthModal := true; hasScrolledToResults := true }
      else s
  | _, _, _ => s
  end.

Definition getVerdictColor (verdict : string) : string :=
  if String.eqb verdict "Legit" then
    "bg-gradient-to-r from-green-400 to-emerald-500 text-white border-green-400"
  else if String.eqb verdict "Caution" then
    "bg-gradient-to-r from-yellow-400 to-orange-400 text-white border-yellow-400"
  else "bg-gradient-to-r from-red-500 to-rose-600 text-white border-red-400".

(** ** The rendered result section, [{result && (...)}] *)

Inductive block : Type :=
| SignInOverlay
| DomainAgeCard (domainAge domainRegistered : string)
| SecurityCard (sslStatus serverLocation : string)
| ThreatStatusCard (status : string)
| RiskLevelCard (scamProbability : string)
| TestimonialCard (t : Testimonial) (active : Z)
| AiAnalysisCard (aiAnalysis : string)
| PeopleExperienceCard (p : PeopleExperience)
| KeyFindingsCard (criticalBanner : bool) (findings : list Finding)
| RecommendationCard (background : string) (criticalWarning : bool)
    (recommendation : string)
| CommentsSectionBlock (url : string).

Record TrustScoreCard : Type :=
  { shown_url : string;
    shown_trustScore : JS.number;
    scoreColor : string;
    shown_verdict : string;
    verdictColor : string }.

Record ResultSection : Type :=
  { trust_score_section : TrustScoreCard;
    details_className : string;
    details : list block }.

(** The threat-status text; the emoji before each word is left out. *)
Definition threatStatus (r : AnalysisResult) : string :=
  if String.eqb (scamProbability r) "CRITICAL - 100%" then "DANGER"
  else if JS.ge (trustScore r) (JS.of_Z 70) then "Clean"
  else if JS.ge (trustScore r) (JS.of_Z 40) then "Caution"
  else "High Risk".

(** [{result.aiAnalysis && (...)}]: nothing for a missing or empty text. *)
Definition aiAnalysisBlock (r : AnalysisResult) : list block :=
  match aiAnalysis r with
  | Some a => if JS.truthy a then [AiAnalysisCard a] else []
  | None => []
  end.

Definition peopleExperienceBlock (r : AnalysisResult) : list block :=
  match peopleExperience r with
  | Some p => [PeopleExperienceCard p]
  | None => []
  end.

Definition recommendationBackground (r : AnalysisResult) : string :=
  if JS.strict_eq (trustScore r) (JS.of_Z 0) then
    "bg-gradient-to-r from-red-900 to-rose-900"
  else if String.eqb (verdict r) "Scam" then
    "bg-gradient-to-r from-red-800 to-rose-800"
  else "bg-gradient-to-r from-slate-900 to-purple-900".

(** The children of [<div className={!user ? 'relative' : ''}>], given the
    testimonial on show. *)
Definition detailBlocks (viewer : option User) (r : AnalysisResult)
  (t : Testimonial) (active : Z) : list block :=
  ((match viewer with None => [SignInOverlay] | Some _ => [] end)
   ++ [ DomainAgeCard (domainAge r) (domainRegistered r);
        SecurityCard (sslStatus r) (serverLocation r);
        ThreatStatusCard (threatStatus r);
        RiskLevelCard (scamProbability r);
        TestimonialCard t active ]
   ++ aiAnalysisBlock r
   ++ peopleExperienceBlock r
   ++ [ KeyFindingsCard (JS.strict_eq (trustScore r) (JS.of_Z 0)) (findings r);
        RecommendationCard (recommendationBackground r)
          (JS.strict_eq (trustScore r) (JS.of_Z 0)) (recommendation r);
        CommentsSectionBlock (url r) ])%list.

(** Rendering reads [testimonials[currentTestimonial].text]: a TypeError
    when the index is outside the array. *)
Definition render_result (s : State) : JS.completion (option ResultSection) :=
  match result s with
  | None => JS.Normal None
  | Some r =>
      match JS.index testimonials (currentTestimonial s) with
      | None =>
          JS.Throw (JS.TypeError "Cannot read properties of undefined")
      | Some t =>
          JS.Normal (Some
            {| trust_score_section :=
                 {| shown_url := url r;
                    shown_trustScore := trustScore r;
                    scoreColor := getScoreColor (trustScore r);
                    shown_verdict := verdict r;
                    verdictColor := getVerdictColor (verdict r) |};
               details_className :=
                 match user s with None => "relative" | Some _ => "" end;
               details := detailBlocks (user s) r t (currentTestimonial s) |})
      end
  end.

(** What a rendered section carries of the result: the fields of the
    trust-score card, whether the sign-in overlay is among the details, and
    the findings and the AI text of the first card that shows them.  No
    block shows [redFlags]. *)
Record Disclosure : Type :=
  { d_url : string;
    d_trustScore : JS.number;
    d_verdict : string;
    d_overlay : bool;
    d_findings : option (list Finding);
    d_aiAnalysis : option string }.

Fixpoint overlayShown (bs : list block) : bool :=
  match bs with
  | [] => false
  | SignInOverlay :: _ => true
  | _ :: rest => overlayShown rest
  end.

Fixpoint findingsShown (bs : list block) : option (list Finding) :=
  match bs with
  | [] => None
  | KeyFindingsCard _ fs :: _ => Some fs
  | _ :: rest => findingsShown rest
  end.

Fixpoint aiAnalysisShown (bs : list block) : option string :=
  match bs with
  | [] => None
  | AiAnalysisCard a :: _ => Some a
  | _ :: rest => aiAnalysisShown rest
  end.

Definition disclosure (rs : ResultSection) : Disclosure :=
  {| d_url := shown_url (trust_score_section rs);
     d_trustScore := shown_trustScore (trust_score_section rs);
     d_verdict := shown_verdict (trust_score_section rs);
     d_overlay := overlayShown (details rs);
     d_findings := findingsShown (details rs);
     d_aiAnalysis := aiAnalysisShown (details rs) |}.

Definition disclosed (s : State) : JS.completion (option Disclosure) :=
  JS.bind (render_result s) (fun v => JS.Normal (option_map disclosure v)).

(** One render pass with the component state passed through: the JSX reads
    the state cells and calls no setter. *)
Definition render_pass (s : State)
  : JS.completion (option ResultSection) * State :=
  (render_result s, s).

(** The events of the component and what each does to the state. *)
Inductive event : Type :=
| ChangeUrl (value : string)
| ClickAnalyze
| StepTimer (step : AnalysisStep)
| AnalyzeSettled (r : settled AnalysisResult)
| TestimonialTimer
| ClickSignIn
| CloseAuthModal
| AuthSuccess (authUser : User)
| ClickLogout
| DismissError
| Scroll (past : bool)
| SharedUserChanged (sharedUser : User)
| TokenVerified (verified : option User).

Definition handle (ev : event) (s : State) : State :=
  match ev with
  | ChangeUrl value => { s with st_url := value; error := None }
  | ClickAnalyze => fst (analyzeWebsite s)
  | StepTimer step => stepTimerFired step s
  | AnalyzeSettled r => analyzeWebsiteSettled r s
  | TestimonialTimer => rotateTestimonial s
  | ClickSignIn => { s with showAuthModal := true }
  | CloseAuthModal => { s with showAuthModal := false }
  | AuthSuccess authUser => fst (handleAuthSuccess authUser s)
  | ClickLogout => fst (handleLogout s)
  | DismissError => { s with error := None }
  | Scroll past => handleScroll past s
  | SharedUserChanged sharedUser => { s with user := Some sharedUser }
  | TokenVerified verified => { s with user := verified }
  end.

Inductive reachable : State -> Prop :=
| reachable_initial (sharedUser : option User) :
    reachable (initial sharedUser)
| reachable_handle (s : State) (ev : event) :
    reachable s -> reachable (handle ev s).

(** A result and a signed-out state to evaluate the component on. *)
Definition sampleResult : AnalysisResult :=
  {| url := "https://example.com";
     trustScore := JS.of_Z 72;
     verdict := "Legit";
     domainAge := "40 days";
     domainRegistered := "2025-01-01";
     sslStatus := "Valid";
     serverLocation := "US";
     whoisData := {| registrar := "R"; owner := "O"; email := "e@example.com";
                     lastUpdated := "2025-01-02" |};
     contentAnalysis :=
       {| aboutUsFound := true; termsOfServiceFound := true;
          contactInfoFound := true; physicalAddressFound := false;
          teamPhotosAnalyzed := false; stockImagesDetected := false |};
     socialData := {| redditMentions := JS.of_Z 1; twitterMentions := JS.of_Z 2;
                      trustpilotScore := JS.of_Z 4;
                      scamAdvisorScore := JS.of_Z 80 |};
     withdrawalComplaints := JS.of_Z 0;
     findings := [ {| type := warning; text := "Domain is 40 days old" |} ];
     sentiment := {| positive := JS.of_Z 60; neutral := JS.of_Z 30;
                     negative := JS.of_Z 10 |};
     redFlags := ["Young domain"];
     ponziCalculation := None;
     scamProbability := "Low";
     recommendation := "Proceed with care.";
     aiAnalysis := Some "No strong scam signals.";
     peopleExperience := None |}.

Definition sampleState : State :=
  { initial None with result := Some sampleResult }.

Definition is_post (e : effect) : bool :=
  match e with
  | PostAnalyze _ => true
  | _ => false
  end.

Definition timerDelay (e : effect) : option Z :=
  match e with
  | SetTimeout ms _ => Some ms
  | _ => None
  end.

(** [disabled={analyzing || !url}] on the Analyze button. *)
Definition analyzeDisabled (s : State) : bool :=
  analyzing s || negb (JS.truthy (st_url s)).

(** [{analyzing && analysisSteps.length > 0 && (...)}]: the progress panel. *)
Definition stepsPanelShown (s : State) : bool :=
  analyzing s && (0 <? Z.of_nat (List.length (analysisSteps s))).

(** The effect on [sharedUser]: a non-null prop is copied into the user
    cell; otherwise a stored session, if any, is sent for verification
    (the answer arrives as [TokenVerified]). *)
Inductive sessionRequest : Type :=
| VerifyToken (token : string).

Definition sharedUserEffect (sharedUser : option User) (st : Storage)
  (s : State) : State * list sessionRequest :=
  match sharedUser with
  | Some u => ({ s with user := Some u }, [])
  | None =>
      match storedSession st with
      | Some token => (s, [VerifyToken token])
      | None => (s, [])
      end
  end.

(** The events of a list handled in order. *)
Definition run_events (evs : list event) (s : State) : State :=
  fold_left (fun st ev => handle ev st) evs s.

End LegitimacyAnalyzer.

(* ================================================================== *)
(** * JobAnalyzer.tsx *)
(* ================================================================== *)

Module JobAnalyzer.

Inductive RedFlagType : Type := flag_critical | flag_warning.

Record RedFlag : Type :=
  { flag_type : RedFlagType; category : string; flag_text : string }.

Record EmailAnalysis : Type :=
  { email : string; isCorporate : bool; domain : string; provider : string;
    email_risk : string }.

Record SalaryAnalysis : Type :=
  { providedSalary : string; isReasonable : bool; assessment : string;
    yearlyEquivalent : string; salary_risk : string }.

Record CompanyVerification : Type :=
  { companyName : string; hasWebsite : bool; legitimacyScore : JS.number }.

Record PlatformAnalysis : Type :=
  { jobUrl : string; isLegitimate : bool; platform : string;
    trustLevel : string }.

Record JobAnalysisResult : Type :=
  { trustScore : JS.number;
    verdict : string;
    riskLevel : string;
    recommendation : string;
    findings : list Finding;
    aiAnalysis : option string;
    aiEnhanced : option bool;
    emailAnalysis : EmailAnalysis;
    salaryAnalysis : SalaryAnalysis;
    companyVerification : CompanyVerification;
    platformAnalysis : PlatformAnalysis;
    redFlags : list RedFlag;
    totalRedFlags : JS.number;
    criticalFlags : JS.number }.

Record FormData : Type :=
  { job_url : string;
    job_description : string;
    company_name : string;
    salary : string;
    recruiter_email : string }.

Record State : Type :=
  { user : option User;
    showAuthModal : bool;
    hasScrolledToResults : bool;
    formData : FormData;
    analyzing : bool;
    result : option JobAnalysisResult;
    error : option string;
    analysisSteps : list string }.

Definition emptyForm : FormData :=
  {| job_url := ""; job_description := ""; company_name := ""; salary := "";
     recruiter_email := "" |}.

Definition initial (sharedUser : option User) : State :=
  {| user := sharedUser; showAuthModal := false;
     hasScrolledToResults := false; formData := emptyForm;
     analyzing := false; result := None; error := None;
     analysisSteps := [] |}.

Inductive effect : Type :=
| SetTimeout (ms : Z) (step : string)
| PostAnalyzeJob (body : FormData)
| RemoveStoredSession
| NotifyAuthSuccess (authUser : User)
| NotifyLogout.

Definition is_request (e : effect) : bool :=
  match e with
  | PostAnalyzeJob _ => true
  | _ => false
  end.

Definition steps : list string :=
  [ "Scraping job posting details...";
    "Analyzing recruiter email...";
    "Checking job platform legitimacy...";
    "Scanning for red flag keywords...";
    "Verifying salary reasonableness...";
    "Checking company online presence...";
    "Running AI fraud detection...";
    "Calculating trust score..." ].

(** [steps.forEach((step, index) => setTimeout(..., index * 500))] *)
Fixpoint stepTimers (index : Z) (l : list string) : list effect :=
  match l with
  | [] => []
  | step :: rest => SetTimeout (index * 500) step :: stepTimers (index + 1) rest
  end.

(** [analyzeJob] up to its first [await]. *)
Definition analyzeJob (s : State) : State * list effect :=
  if negb (JS.truthy (job_url (formData s)))
     && negb (JS.truthy (job_description (formData s)))
  then
    ({ s with error :=
         Some "Please provide either a job URL or job description" },
     [])
  else
    ({ s with analyzing := true; analysisSteps := []; result := None;
              error := None; hasScrolledToResults := false },
     (stepTimers 0 steps ++ [PostAnalyzeJob (formData s)])%list).

Definition stepTimerFired (step : string) (s : State) : State :=
  { s with analysisSteps := (analysisSteps s ++ [step])%list }.

Definition analyzeJobSettled (r : settled JobAnalysisResult) (s : State)
  : State :=
  match r with
  | ResponseOk data => { s with result := Some data; analyzing := false }
  | ResponseNotOk detail =>
      { s with error := Some detail; analyzing := false; analysisSteps := [] }
  | Rejected message =>
      { s with error := Some message; analyzing := false; analysisSteps := [] }
  end.

Definition handleAuthSuccess (authUser : User) (s : State)
  : State * list effect :=
  ({ s with user := Some authUser; showAuthModal := false },
   [NotifyAuthSuccess authUser]).

Definition handleLogout (s : State) : State * list effect :=
  ({ s with user := None; result := None; formData := emptyForm },
   [RemoveStoredSession; NotifyLogout]).

Definition getVerdictColor (verdict : string) : string :=
  if String.eqb verdict "Likely Legitimate" then
    "bg-gradient-to-r from-green-400 to-emerald-500 text-white border-green-400"
  else if String.eqb verdict "Possibly Suspicious" then
    "bg-gradient-to-r from-yellow-400 to-orange-400 text-white border-yellow-400"
  else "bg-gradient-to-r from-red-500 to-rose-600 text-white border-red-400".

Definition getRiskBadgeColor (risk : string) : string :=
  if String.eqb risk "Low" || String.eqb risk "Low Risk" then
    "bg-green-100 text-green-800 border-green-300"
  else if String.eqb risk "Medium" || String.eqb risk "Medium Risk" then
    "bg-yellow-100 text-yellow-800 border-yellow-300"
  else if String.eqb risk "High" || String.eqb risk "High Risk"
          || String.eqb risk "Critical" then
    "bg-red-100 text-red-800 border-red-300"
  else "bg-gray-100 text-gray-800 border-gray-300".

(** ** The rendered result section, [{result && (...)}] *)

Inductive block : Type :=
| SignInOverlay
| CriticalWarningBanner (criticalFlags : JS.number)
| RecruiterEmailCard (e : EmailAnalysis) (badge : string)
| JobPlatformCard (p : PlatformAnalysis)
| SalaryCheckCard (a : SalaryAnalysis) (badge : string)
| RedFlagsCountCard (totalRedFlags criticalFlags : JS.number)
| DetectedRedFlagsCard (redFlags : list RedFlag)
| AiAnalysisCard (aiAnalysis : string)
| AnalysisFindingsCard (findings : list Finding)
| CompanyVerificationCard (companyName : string) (legitimacyScore : JS.number)
| RecommendationCard (background : string) (recommendation : string)
    (doNotList : bool).

Record TrustScoreCard : Type :=
  { shown_trustScore : JS.number;
    scoreColor : string;
    shown_verdict : string;
    verdictColor : string;
    shown_riskLevel : string;
    riskBadge : string }.

Record ResultSection : Type :=
  { trust_score_section : TrustScoreCard;
    details_className : string;
    details : list block }.

Definition recommendationBackground (r : JobAnalysisResult) : string :=
  if JS.ge (trustScore r) (JS.of_Z 70) then
    "bg-gradient-to-r from-green-700 to-emerald-700"
  else if JS.ge (trustScore r) (JS.of_Z 40) then
    "bg-gradient-to-r from-yellow-700 to-orange-700"
  else "bg-gradient-to-r from-red-800 to-rose-800".

Definition aiAnalysisBlock (r : JobAnalysisResult) : list block :=
  match aiAnalysis r with
  | Some a => if JS.truthy a then [AiAnalysisCard a] else []
  | None => []
  end.

(** The children of [<div className={!user ? 'relative' : ''}>]. *)
Definition detailBlocks (viewer : option User) (r : JobAnalysisResult)
  : list block :=
  ((match viewer with None => [SignInOverlay] | Some _ => [] end)
   ++ (if JS.gt (criticalFlags r) (JS.of_Z 0)
       then [CriticalWarningBanner (criticalFlags r)] else [])
   ++ [ RecruiterEmailCard (emailAnalysis r)
          (getRiskBadgeColor (email_risk (emailAnalysis r)));
        JobPlatformCard (platformAnalysis r);
        SalaryCheckCard (salaryAnalysis r)
          (getRiskBadgeColor (salary_risk (salaryAnalysis r)));
        RedFlagsCountCard (totalRedFlags r) (criticalFlags r) ]
   ++ (match redFlags r with [] => [] | _ :: _ => [DetectedRedFlagsCard (redFlags r)] end)
   ++ aiAnalysisBlock r
   ++ [ AnalysisFindingsCard (findings r);
        CompanyVerificationCard
          (if JS.truthy (companyName (companyVerification r))
           then companyName (companyVerification r) else "Not provided")
          (legitimacyScore (companyVerification r));
        RecommendationCard (recommendationBackground r) (recommendation r)
          (JS.lt (trustScore r) (JS.of_Z 40)) ])%list.

Definition render_result (s : State) : option ResultSection :=
  match result s with
  | None => None
  | Some r =>
      Some {| trust_score_section :=
                {| shown_trustScore := trustScore r;
                   scoreColor := getScoreColor (trustScore r);
                   shown_verdict := verdict r;
                   verdictColor := getVerdictColor (verdict r);
                   shown_riskLevel := riskLevel r;
                   riskBadge := getRiskBadgeColor (riskLevel r) |};
              details_className :=
                match user s with None => "relative" | Some _ => "" end;
              details := detailBlocks (user s) r |}
  end.

Definition timerDelay (e : effect) : option Z :=
  match e with
  | SetTimeout ms _ => Some ms
  | _ => None
  end.

(** [disabled={analyzing || (!formData.job_url && !formData.job_description)}]
    on the Analyze button. *)
Definition analyzeDisabled (s : State) : bool :=
  analyzing s
  || (negb (JS.truthy (job_url (formData s)))
      && negb (JS.truthy (job_description (formData s)))).

(** The timeout awaited between the response and [setResult]:
    [steps.length * 500 + 500]. *)
Definition resultWait : Z := Z.of_nat (List.length steps) * 500 + 500.

(** The effect on [sharedUser]: [if (sharedUser) setUser(sharedUser)]. *)
Definition sharedUserEffect (sharedUser : option User) (s : State) : State :=
  match sharedUser with
  | Some u => { s with user := Some u }
  | None => s
  end.

End JobAnalyzer.

(* ================================================================== *)
(** * CommentsSection.tsx *)
(* ================================================================== *)

Module CommentsSection.

Record Comment : Type :=
  { id : Z;
    c_user_name : string;
    c_rating : Z;
    c_experience : string;
    c_comment : string;
    c_was_scammed : bool;
    timestamp : string;
    helpful_count : Z }.

Record Breakdown : Type := { positive : Z; neutral : Z; negative : Z }.

Record Stats : Type :=
  { total_comments : Z;
    average_rating : JS.number;
    scam_reports : Z;
    experience_breakdown : Breakdown }.

Record FormData : Type :=
  { user_name : string;
    rating : Z;
    experience : string;
    comment : string;
    was_scammed : bool }.

Record State : Type :=
  { comments : list Comment;
    stats : Stats;
    showForm : bool;
    formData : FormData;
    submitting : bool }.

Definition initialStats : Stats :=
  {| total_comments := 0;
     average_rating := JS.of_Z 0;
     scam_reports := 0;
     experience_breakdown := {| positive := 0; neutral := 0; negative := 0 |} |}.

Definition emptyForm : FormData :=
  {| user_name := ""; rating := 5; experience := "positive"; comment := "";
     was_scammed := false |}.

Definition initial : State :=
  {| comments := []; stats := initialStats; showForm := false;
     formData := emptyForm; submitting := false |}.

(** The body of [GET /api/comments/:domain] as [loadComments] reads it;
    [data.comments || []] makes a missing list empty. *)
Record CommentsData : Type :=
  { data_comments : option (list Comment);
    data_total_comments : Z;
    data_average_rating : JS.number;
    data_scam_reports : Z;
    data_experience_breakdown : Breakdown }.

Inductive request : Type :=
| GetComments (domain : string)
| PostComment (body : FormData) (url : string)
| PostHelpful (commentId : Z) (domain : string).

Definition is_post_comment (r : request) : bool :=
  match r with
  | PostComment _ _ => true
  | _ => false
  end.

(** [s.replace(pat, rep)] with a string pattern: the first occurrence. *)
Fixpoint replace_first (pat rep s : string) : string :=
  if prefix pat s then
    rep ++ substring (String.length pat) (String.length s - String.length pat) s
  else
    match s with
    | EmptyString => EmptyString
    | String c s' => String c (replace_first pat rep s')
    end.

Section WithURL.

(** [new URL(href).hostname]; the constructor throws on an invalid URL. *)
Variable URL_hostname : string -> JS.completion string.

Definition domainOf (url : string) : JS.completion string :=
  JS.bind (URL_hostname (if prefix "http" url then url else "https://" ++ url))
    (fun hostname => JS.Normal (replace_first "www." "" hostname)).

(** [loadComments] up to its first [await]; a URL that does not parse is
    caught and logged. *)
Definition loadComments (url : string) : list request :=
  match domainOf url with
  | JS.Normal domain => [GetComments domain]
  | JS.Throw _ => []
  end.

(** [loadComments] after the GET has settled: [Some data] is the parsed
    body (the status is not looked at), [None] a rejected fetch or a body
    that is not JSON, which is caught and logged. *)
Definition loadCommentsSettled (r : option CommentsData) (s : State) : State :=
  match r with
  | Some data =>
      { s with comments :=
                 match data_comments data with Some cs => cs | None => [] end;
               stats :=
                 {| total_comments := data_total_comments data;
                    average_rating := data_average_rating data;
                    scam_reports := data_scam_reports data;
                    experience_breakdown := data_experience_breakdown data |} }
  | None => s
  end.

(** [handleSubmit] up to its first [await]. *)
Definition handleSubmit (url : string) (s : State) : State * list request :=
  if negb (JS.truthy (user_name (formData s)))
     || negb (JS.truthy (comment (formData s)))
  then (s, [])
  else ({ s with submitting := true }, [PostComment (formData s) url]).

(** [handleSubmit] after the POST has settled. *)
Definition handleSubmitSettled (url : string) (r : settled unit) (s : State)
  : State * list request :=
  match r with
  | ResponseOk _ =>
      ({ s with formData := emptyForm; showForm := false; submitting := false },
       loadComments url)
  | ResponseNotOk _ | Rejected _ => ({ s with submitting := false }, [])
  end.

(** [markHelpful] up to its [await]. *)
Definition markHelpful (url : string) (commentId : Z) : list request :=
  match domainOf url with
  | JS.Normal domain => [PostHelpful commentId domain]
  | JS.Throw _ => []
  end.

(** [markHelpful] after the POST has settled: the comments are loaded
    again unless the fetch was rejected. *)
Definition markHelpfulSettled (url : string) (fulfilled : bool)
  : list request :=
  if fulfilled then loadComments url else [].

(** The effect on mount and on a new [url]: [loadComments()]. *)
Definition mounted (url : string) : list request := loadComments url.

(** The values the form's buttons are built from. *)
Definition starButtons : list Z := [1; 2; 3; 4; 5].
Definition experienceButtons : list string := ["positive"; "neutral"; "negative"].

Definition submitDisabled (s : State) : bool :=
  submitting s
  || negb (JS.truthy (user_name (formData s)))
  || negb (JS.truthy (comment (formData s))).

Inductive event : Type :=
| ToggleForm
| ChangeUserName (value : string)
| ClickStar (star : Z)
| ClickExperience (exp : string)
| ChangeComment (value : string)
| ChangeWasScammed (checked : bool)
| ClickSubmit
| SubmitSettled (r : settled unit)
| CommentsLoaded (r : option CommentsData)
| ClickHelpful (commentId : Z)
| HelpfulSettled (fulfilled : bool).

(** The events the rendered component offers: the form exists only while
    [showForm], a star or experience button only for a value of its list,
    a disabled submit button does not click, and a helpful button belongs
    to a listed comment. *)
Definition offered (s : State) (ev : event) : Prop :=
  match ev with
  | ChangeUserName _ | ChangeComment _ | ChangeWasScammed _ =>
      showForm s = true
  | ClickStar star => showForm s = true /\ In star starButtons
  | ClickExperience exp => showForm s = true /\ In exp experienceButtons
  | ClickSubmit => showForm s = true /\ submitDisabled s = false
  | ClickHelpful commentId => In commentId (map id (comments s))
  | ToggleForm | SubmitSettled _ | CommentsLoaded _ | HelpfulSettled _ => True
  end.

Definition handle (url : string) (ev : event) (s : State)
  : State * list request :=
  match ev with
  | ToggleForm => ({ s with showForm := negb (showForm s) }, [])
  | ChangeUserName value =>
      ({ s with formData := { formData s with user_name := value } }, [])
  | ClickStar star =>
      ({ s with formData := { formData s with rating := star } }, [])
  | ClickExperience exp =>
      ({ s with formData := { formData s with experience := exp } }, [])
  | ChangeComment value =>
      ({ s with formData := { formData s with comment := value } }, [])
  | ChangeWasScammed checked =>
      ({ s with formData := { formData s with was_scammed := checked } }, [])
  | ClickSubmit => handleSubmit url s
  | SubmitSettled r => handleSubmitSettled url r s
  | CommentsLoaded r => (loadCommentsSettled r s, [])
  | ClickHelpful commentId => (s, markHelpful url commentId)
  | HelpfulSettled fulfilled => (s, markHelpfulSettled url fulfilled)
  end.

Inductive reachable (url : string) : State -> Prop :=
| reachable_initial : reachable url initial
| reachable_handle (s : State) (ev : event) :
    reachable url s -> offered s ev -> reachable url (fst (handle url ev s)).

End WithURL.

(** The form's stars: [star <= formData.rating] for each star button. *)
Definition formStars (s : State) : list bool :=
  map (fun star => star <=? rating (formData s)) starButtons.

(** The stars of a listed comment: [i < comment.rating] for [i] in 0..4. *)
Definition commentStars (c : Comment) : list bool :=
  map (fun i => Z.of_nat i <? c_rating c) (seq 0 5).

Definition filled (stars : list bool) : Z :=
  Z.of_nat (List.length (filter (fun b => b) stars)).

Definition getExperienceColor (exp : string) : string :=
  if String.eqb exp "positive" then "text-green-600 bg-green-50"
  else if String.eqb exp "negative" then "text-red-600 bg-red-50"
  else "text-gray-600 bg-gray-50".

End CommentsSection.

(* ================================================================== *)
(** * DynamicStats.tsx *)
(* ================================================================== *)

Module DynamicStats.

Inductive StatKey : Type :=
| key_websitesAnalyzed | key_jobsVerified | key_scamsDetected
| key_usersProtected.

Record Stats : Type :=
  { websitesAnalyzed : JS.number;
    jobsVerified : JS.number;
    scamsDetected : JS.number;
    usersProtected : JS.number }.

Record Testimonial : Type :=
  { quote : string; author : string; role : option string }.

Definition defaultStats : Stats :=
  {| websitesAnalyzed := JS.of_Z 10000;
     jobsVerified := JS.of_Z 5000;
     scamsDetected := JS.of_Z 2500;
     usersProtected := JS.of_Z 120000 |}.

Definition testimonials : list Testimonial :=
  [ {| quote := "Platform Analyzer helped our team avoid a high-risk vendor in minutes.";
       author := "Alex P."; role := Some "Security Lead" |};
    {| quote := "The job offer checker caught subtle red flags I would have missed.";
       author := "Maria L."; role := Some "Job Seeker" |};
    {| quote := "We use it before every big investment decision. Huge peace of mind.";
       author := "James K."; role := Some "Retail Investor" |} ].

Definition stat (key : StatKey) (st : Stats) : JS.number :=
  match key with
  | key_websitesAnalyzed => websitesAnalyzed st
  | key_jobsVerified => jobsVerified st
  | key_scamsDetected => scamsDetected st
  | key_usersProtected => usersProtected st
  end.

Section WithIntl.

(** [new Intl.NumberFormat('en', {notation: 'compact',
    maximumFractionDigits: 1}).format(value)]; it throws where the
    environment has no such formatter. *)
Variable Intl_compact_format : JS.number -> JS.completion string.

(** The [catch] block of [formatCompact]. *)
Definition formatCompact_fallback (value : JS.number) : JS.completion string :=
  if JS.ge value (JS.of_Z 1000000) then
    JS.bind (JS.toFixed (JS.div value (JS.of_Z 1000000)) 1)
      (fun m => JS.Normal (m ++ "M"))
  else if JS.ge value (JS.of_Z 1000) then
    JS.bind (JS.toFixed (JS.div value (JS.of_Z 1000)) 1)
      (fun k => JS.Normal (k ++ "K"))
  else JS.Normal (JS.to_string value).

Definition formatCompact (value : JS.number) : JS.completion string :=
  JS.try_catch (Intl_compact_format value) (formatCompact_fallback value).

End WithIntl.

Record State : Type :=
  { stats : option Stats;
    loading : bool;
    refreshing : bool;
    error : option string;
    lastUpdated : option Z;
    currentTestimonial : Z;
    testimonialPaused : bool }.

Definition initial : State :=
  {| stats := None; loading := true; refreshing := false; error := None;
     lastUpdated := None; currentTestimonial := 0;
     testimonialPaused := false |}.

(** [value = stats?.[key] ?? defaultStats[key]] *)
Definition shownStat (key : StatKey) (s : State) : JS.number :=
  match stats s with
  | Some st => stat key st
  | None => stat key defaultStats
  end.

(** [load(isInitial)] up to its [await]. *)
Definition loadBegin (isInitial : bool) (s : State) : State :=
  if isInitial then { s with loading := true; error := None }
  else { s with refreshing := true; error := None }.

(** [load(isInitial)] after [fetchStats] has settled at time [now], on a
    component that is still mounted. *)
Definition loadSettled (isInitial : bool) (r : settled Stats) (now : Z)
  (s : State) : State :=
  let s' :=
    match r with
    | ResponseOk data => { s with stats := Some data; lastUpdated := Some now }
    | ResponseNotOk message | Rejected message =>
        { s with error := Some message }
    end in
  if isInitial then { s' with loading := false }
  else { s' with refreshing := false }.

(** The interval callback of the rotating testimonials. *)
Definition rotateTestimonial (s : State) : State :=
  if testimonialPaused s then s
  else { s with currentTestimonial :=
           Z.rem (currentTestimonial s + 1)
                 (Z.of_nat (List.length testimonials)) }.

(** The indices [testimonials.map((_, index) => ...)] builds a dot for. *)
Definition dotButtons : list Z :=
  map Z.of_nat (seq 0 (List.length testimonials)).

(** [const current = testimonials[currentTestimonial]] *)
Definition current (s : State) : option Testimonial :=
  JS.index testimonials (currentTestimonial s).

Inductive event : Type :=
| LoadBegin (isInitial : bool)
| LoadSettled (isInitial : bool) (r : settled Stats) (now : Z)
| TestimonialTimer
| ClickDot (index : Z)
| MouseEnter | MouseLeave | Focus | Blur.

(** A dot can be clicked only if the render built it. *)
Definition offered (ev : event) : Prop :=
  match ev with
  | ClickDot index => In index dotButtons
  | _ => True
  end.

Definition handle (ev : event) (s : State) : State :=
  match ev with
  | LoadBegin isInitial => loadBegin isInitial s
  | LoadSettled isInitial r now => loadSettled isInitial r now s
  | TestimonialTimer => rotateTestimonial s
  | ClickDot index => { s with currentTestimonial := index }
  | MouseEnter | Focus => { s with testimonialPaused := true }
  | MouseLeave | Blur => { s with testimonialPaused := false }
  end.

Inductive reachable : State -> Prop :=
| reachable_initial : reachable initial
| reachable_handle (s : State) (ev : event) :
    reachable s -> offered ev -> reachable (handle ev s).

(** [k] firings of the testimonial timer. *)
Definition ticks (k : nat) (s : State) : State :=
  Nat.iter k (handle TestimonialTimer) s.

End DynamicStats.

(* ================================================================== *)
(** * AuthModal.tsx *)
(* ================================================================== *)

Module AuthModal.

Record FormData : Type :=
  { name : string; email : string; password : string }.

Record State : Type :=
  { isSignUp : bool; formData : FormData; loading : bool; error : string }.

Definition emptyForm : FormData :=
  {| name := ""; email := ""; password := "" |}.

Definition initial : State :=
  {| isSignUp := false; formData := emptyForm; loading := false;
     error := "" |}.

(** The body of the auth response as [handleSubmit] reads it. *)
Record AuthData : Type :=
  { needs_verification : bool;
    token : option string;
    data_user : User;
    detail : option string }.

(** The awaited fetch and [response.json()]: a body with [response.ok], or
    a rejection or a body that is not JSON. *)
Inductive response : Type :=
| Body (ok : bool) (data : AuthData)
| Failed.

Inductive effect : Type :=
| PostAuth (endpoint : string) (body : FormData)
| Redirect (href : string)
| Alert (message : string)
| StoreSession (token : string) (user : User)
| OnAuthSuccess (user : User)
| OnClose.

Definition is_post (e : effect) : bool :=
  match e with
  | PostAuth _ _ => true
  | _ => false
  end.

Definition handleGoogleAuth (s : State) : State * list effect :=
  ({ s with loading := true; error := "" },
   [Redirect "https://platform-analyzer-backend.onrender.com/auth/google"]).

(** Every character of [s] is white space. *)
Definition blank (s : string) : bool :=
  forallb JS.is_whitespace (list_ascii_of_string s).

(** [handleSubmit] up to its first [await]. *)
Definition handleSubmit (s : State) : State * list effect :=
  if isSignUp s && negb (JS.truthy (JS.trim (name (formData s)))) then
    ({ s with error := "Please enter your name" }, [])
  else if negb (JS.truthy (JS.trim (email (formData s)))) then
    ({ s with error := "Please enter your email" }, [])
  else if negb (JS.truthy (password (formData s)))
          || (Z.of_nat (String.length (password (formData s))) <? 6) then
    ({ s with error := "Password must be at least 6 characters" }, [])
  else
    ({ s with loading := true; error := "" },
     [PostAuth (if isSignUp s then "/auth/signup" else "/auth/login")
        (formData s)]).

(** [handleSubmit] after the response; [submitted] is the form the handler
    was called with. *)
Definition handleSubmitSettled (submitted : FormData) (r : response)
  (s : State) : State * list effect :=
  match r with
  | Body true data =>
      if needs_verification data then
        ({ s with isSignUp := false;
                  formData := {| name := ""; email := email submitted;
                                 password := "" |};
                  loading := false },
         [Alert "Account created! Please check your email to verify your account before signing in."])
      else
        match token data with
        | Some t =>
            if JS.truthy t then
              ({ s with loading := false },
               [StoreSession t (data_user data);
                OnAuthSuccess (data_user data); OnClose])
            else
              ({ s with error := "Authentication completed but no token received. Please try signing in.";
                        loading := false }, [])
        | None =>
            ({ s with error := "Authentication completed but no token received. Please try signing in.";
                      loading := false }, [])
        end
  | Body false data =>
      ({ s with error :=
                  match detail data with
                  | Some d => if JS.truthy d then d
                              else "Authentication failed. Please try again."
                  | None => "Authentication failed. Please try again."
                  end;
                loading := false }, [])
  | Failed =>
      ({ s with error := "Connection error. Please check your internet and try again.";
                loading := false }, [])
  end.

(** The link under the form that switches between sign-in and sign-up. *)
Definition toggleMode (s : State) : State :=
  { s with isSignUp := negb (isSignUp s); error := ""; formData := emptyForm }.

End AuthModal.

(* ================================================================== *)
(** * App.tsx: the shell that shares the user between the analyzers *)
(* ================================================================== *)

Module App.

Inductive ServiceType : Type := website | job.

Record State : Type :=
  { activeService : ServiceType;
    mobileMenuOpen : bool;
    user : option User;
    authChecked : bool }.

Definition initial : State :=
  {| activeService := website; mobileMenuOpen := false; user := None;
     authChecked := false |}.

Inductive sessionRequest : Type :=
| VerifyToken (token : string).

(** The effect on mount, up to the fetch. *)
Definition checkAuth (st : Storage) (s : State) : State * list sessionRequest :=
  match storedSession st with
  | Some token => (s, [VerifyToken token])
  | None => ({ s with authChecked := true }, [])
  end.

(** The fetch of the mount effect has settled: [Some u] is an ok response
    with [data.user], [None] a response that is not ok (the stored session
    is removed) or a rejection. *)
Definition checkAuthSettled (verified : option User) (notOk : bool)
  (st : Storage) (s : State) : Storage * State :=
  match verified with
  | Some u => (st, { s with user := Some u; authChecked := true })
  | None =>
      (if notOk then clearedStorage else st,
       { s with user := None; authChecked := true })
  end.

Definition handleAuthSuccess (authUser : User) (s : State) : State :=
  { s with user := Some authUser }.

Definition handleLogout (st : Storage) (s : State) : Storage * State :=
  (clearedStorage, { s with user := None }).

(** The page: the storage, the shell and the website analyzer it mounts
    with [sharedUser={user}], [onAuthSuccess={handleAuthSuccess}] and
    [onLogout={handleLogout}]. *)
Record Page : Type :=
  { storage : Storage;
    shell : State;
    analyzer : LegitimacyAnalyzer.State }.

(** After the shell's user changed, the analyzer's effect on [sharedUser]
    runs. *)
Definition syncAnalyzer (p : Page) : Page :=
  { p with analyzer :=
      fst (LegitimacyAnalyzer.sharedUserEffect (user (shell p)) (storage p)
             (analyzer p)) }.

(** The Logout button of the shell's header. *)
Definition headerLogout (p : Page) : Page :=
  let '(st, sh) := handleLogout (storage p) (shell p) in
  syncAnalyzer { p with storage := st; shell := sh }.

(** The Logout button of the analyzer: its [handleLogout] removes the
    stored session, clears its own cells and calls the shell's. *)
Definition analyzerLogout (p : Page) : Page :=
  let a := fst (LegitimacyAnalyzer.handleLogout (analyzer p)) in
  let '(st, sh) := handleLogout clearedStorage (shell p) in
  syncAnalyzer { p with storage := st; shell := sh; analyzer := a }.

(** A successful sign-in in the analyzer's modal: the modal stores the
    session, the analyzer's [handleAuthSuccess] sets its user and calls
    the shell's. *)
Definition analyzerAuthSuccess (token user_json : string) (authUser : User)
  (p : Page) : Page :=
  let a := fst (LegitimacyAnalyzer.handleAuthSuccess authUser (analyzer p)) in
  syncAnalyzer
    { p with storage := {| auth_token := Some token;
                           stored_user := Some user_json |};
             shell := handleAuthSuccess authUser (shell p);
             analyzer := a }.

End App.

(* ================================================================== *)
(** * The aggregators behind the API, as the specification describes them *)
(* ================================================================== *)

Module Aggregation.

(** Modelled from the spec: the verdict categories of a website result
    (section 3), best first; the ScoreAggregator that produces them is
    backend code. *)
Inductive Verdict : Type := Legit | Caution | Scam.

(** Modelled from the spec: the SignalValue of section 6, the input of the
    ScoreAggregator. *)
Record SignalValue : Type :=
  { kind : string;
    numericValue : option Z;
    flags : list string;
    severity : option FindingType }.

(** Modelled from the spec: the RedFlag of sections 3 and 6, an output of
    the ScoreAggregator. *)
Record RedFlag : Type :=
  { flag_type : FindingType; category : string; flag_text : string }.

(** Modelled from the spec: the AnalysisResult of sections 3 and 6, the
    output of the ScoreAggregator. *)
Record AnalysisResult : Type :=
  { target : string;
    score : Z;
    verdict : Verdict;
    findings : list Finding;
    redFlags : list RedFlag;
    aiAnalysis : option string }.

(** Modelled from the spec: the test [severity == "critical"] of the
    ScoreAggregator's override (section 4.1, property 2). *)
Definition is_critical (v : SignalValue) : bool :=
  match severity v with
  | Some critical => true
  | _ => false
  end.

(** Modelled from the spec: the test that a signal has a given severity,
    used to order the ScoreAggregator's findings (section 4.1). *)
Definition has_severity (t : FindingType) (v : SignalValue) : bool :=
  match severity v, t with
  | Some critical, critical | Some warning, warning | Some info, info => true
  | _, _ => false
  end.

(** Modelled from the spec: the score-to-verdict thresholds of the
    ScoreAggregator (section 4.1), whose code is in the backend. *)
Definition verdictOf (score : Z) : Verdict :=
  if 70 <=? score then Legit else if 40 <=? score then Caution else Scam.

(** Modelled from the spec: the ScoreAggregator keeps its score in
    [lo, hi] (section 3: the score is in [0,100]). *)
Definition clamp (lo hi x : Z) : Z := Z.max lo (Z.min hi x).

(** Modelled from the spec: the Finding the ScoreAggregator derives from
    a signal that carries a severity (section 4.1). *)
Definition findingOf (entry : string * SignalValue) : list Finding :=
  match severity (snd entry) with
  | Some t => [ {| type := t; text := kind (snd entry) |} ]
  | None => []
  end.

(** Modelled from the spec: the RedFlag the ScoreAggregator derives from
    a critical or warning signal, categorized by the signal's name
    (section 4.1). *)
Definition redFlagOf (entry : string * SignalValue) : RedFlag :=
  {| flag_type := match severity (snd entry) with Some t => t | None => info end;
     category := fst entry;
     flag_text := kind (snd entry) |}.

Section ScoreAggregator.

(** The documented baseline and the signed adjustment of each signal. *)
Variable baseline : Z.
Variable adjustment : string -> SignalValue -> Z.

(** Modelled from the spec: the weighted sum of the ScoreAggregator
    (section 4.1): every signal adds its adjustment to the baseline and
    the total is kept in [0, 100]. *)
Definition weightedScore (signals : list (string * SignalValue)) : Z :=
  clamp 0 100
    (fold_left (fun acc e => acc + adjustment (fst e) (snd e)) signals baseline).

(** Modelled from the spec: the findings of the ScoreAggregator (section
    4.1), highest severity first, then in the order of the signals. *)
Definition findingsOf (signals : list (string * SignalValue)) : list Finding :=
  flat_map findingOf
    (filter (fun e => has_severity critical (snd e)) signals
     ++ filter (fun e => has_severity warning (snd e)) signals
     ++ filter (fun e => has_severity info (snd e)) signals)%list.

(** Modelled from the spec: the red flags of the ScoreAggregator (section
    4.1), the critical and warning findings with their category. *)
Definition redFlagsOf (signals : list (string * SignalValue)) : list RedFlag :=
  map redFlagOf
    (filter (fun e => has_severity critical (snd e)) signals
     ++ filter (fun e => has_severity warning (snd e)) signals)%list.

(** Modelled from the spec: the ScoreAggregator (section 4.1, properties 1,
    2 and 8), whose code is in the backend.  An empty signal map is invalid
    input; a critical signal is an override tested before the weighted sum
    and forces score 0 and the worst verdict. *)
Definition aggregate (tgt : string) (signals : list (string * SignalValue))
  : option AnalysisResult :=
  match signals with
  | [] => None
  | _ :: _ =>
      let override := existsb (fun e => is_critical (snd e)) signals in
      let sc := if override then 0 else weightedScore signals in
      Some {| target := tgt;
              score := sc;
              verdict := if override then Scam else verdictOf sc;
              findings := findingsOf signals;
              redFlags := redFlagsOf signals;
              aiAnalysis := None |}
  end.

End ScoreAggregator.

(** Modelled from the spec: the CommentSummary of sections 3 and 6, the
    output of the CommentAggregator, which is backend code. *)
Record CommentSummary : Type :=
  { total_comments : Z;
    average_rating : Q;
    scam_reports : Z;
    experience_breakdown : CommentsSection.Breakdown }.

(** Modelled from the spec: the count of the comments with a property, as
    the CommentAggregator counts scam reports and experience categories
    (section 4.3). *)
Definition countIf (p : CommentsSection.Comment -> bool)
  (cs : list CommentsSection.Comment) : Z :=
  Z.of_nat (List.length (filter p cs)).

(** Modelled from the spec: the CommentAggregator (section 4.3), whose code
    is in the backend: the count, the mean rating (0 for no comments), the
    scam reports and the comments of each experience category. *)
Definition summarize (cs : list CommentsSection.Comment) : CommentSummary :=
  {| total_comments := Z.of_nat (List.length cs);
     average_rating :=
       match cs with
       | [] => 0%Q
       | _ :: _ =>
           (fold_right Z.add 0%Z (map CommentsSection.c_rating cs)
            # Pos.of_nat (List.length cs))%Q
       end;
     scam_reports := countIf CommentsSection.c_was_scammed cs;
     experience_breakdown :=
       {| CommentsSection.positive :=
            countIf (fun c => String.eqb (CommentsSection.c_experience c) "positive") cs;
          CommentsSection.neutral :=
            countIf (fun c => String.eqb (CommentsSection.c_experience c) "neutral") cs;
          CommentsSection.negative :=
            countIf (fun c => String.eqb (CommentsSection.c_experience c) "negative") cs |} |}.

End Aggregation.

(* ================================================================== *)
(** * Properties *)
(* ================================================================== *)

Ltac split_hyps :=
  repeat match goal with
         | H : _ /\ _ |- _ => destruct H
         end.

(** ** Order of numbers against a literal *)

Lemma SFcompare_antisym (x y : spec_float) :
  SFcompare y x = option_map CompOpp (SFcompare x y).
Proof.
  destruct x as [sx|sx| |sx mx ex], y as [sy|sy| |sy my ey]; simpl;
    try reflexivity;
    try (destruct sx; reflexivity);
    try (destruct sy; reflexivity);
    try (destruct sx, sy; reflexivity).
  pose proof (Pos.compare_cont_antisym mx my Eq) as Hm.
  pose proof (Pos.compare_cont_antisym my mx Eq) as Hm'.
  simpl in Hm, Hm'.
  destruct sx, sy; simpl; try reflexivity;
    rewrite (Z.compare_antisym ex ey);
    destruct (ex ?= ey); simpl; try reflexivity;
    rewrite ?CompOpp_involutive; congruence.
Qed.

Lemma lt_not_ge (x c : JS.number) : JS.lt x c = true -> JS.ge x c = false.
Proof.
  unfold JS.lt, JS.ge, SFltb, SFleb.
  rewrite (SFcompare_antisym x c).
  destruct (SFcompare x c) as [[ | | ]|]; simpl; congruence.
Qed.

Lemma not_ge_lt (x c : JS.number) :
  JS.ge x c = false -> SFcompare x c <> None -> JS.lt x c = true.
Proof.
  unfold JS.lt, JS.ge, SFltb, SFleb.
  rewrite (SFcompare_antisym x c).
  destruct (SFcompare x c) as [[ | | ]|]; simpl; congruence.
Qed.

Lemma ge_not_nan (x c : JS.number) : JS.ge x c = true -> x <> JS.NaN.
Proof.
  unfold JS.ge, SFleb. intros H Hx. subst x.
  destruct c as [s|s| |s m e]; discriminate H.
Qed.

Lemma compare_with_finite (x : JS.number) (m : positive) (e : Z) :
  x <> JS.NaN -> SFcompare x (S754_finite false m e) <> None.
Proof.
  intros Hx. destruct x as [[|]|[|]| |[|] mx ex];
    cbv beta iota delta [SFcompare]; try discriminate.
  exfalso. apply Hx. reflexivity.
Qed.

Lemma ge_70_ge_40 (score : JS.number) :
  JS.ge score (JS.of_Z 70) = true -> JS.ge score (JS.of_Z 40) = true.
Proof.
  unfold JS.ge, SFleb.
  change (JS.of_Z 70) with (S754_finite false 4925812092436480 (-46)).
  change (JS.of_Z 40) with (S754_finite false 5629499534213120 (-47)).
  destruct score as [s|s| |s m e]; cbv beta iota delta [SFcompare];
    try congruence; try (destruct s; congruence).
  destruct s; try congruence.
  destruct (Z.compare_spec (-46) e) as [H|H|H];
    destruct (Z.compare_spec (-47) e) as [H'|H'|H']; try lia; congruence.
Qed.

(** ** getScoreColor *)

(** C1, as stated, fails where a score ties with a threshold: the claim
    sends a tie to the lower band, the code sends 70 to the best band and
    40 to the middle band. *)
Lemma getScoreColor_tie_takes_upper_band :
  getScoreColor (JS.of_Z 70) = "from-emerald-500 to-green-600"
  /\ getScoreColor (JS.of_Z 70) <> "from-yellow-500 to-orange-500"
  /\ getScoreColor (JS.of_Z 40) = "from-yellow-500 to-orange-500"
  /\ getScoreColor (JS.of_Z 40) <> "from-red-500 to-rose-600".
Proof.
  repeat split; try reflexivity; vm_compute; discriminate.
Qed.

(** C1, amended: the thresholds are inclusive.  getScoreColor returns the
    green band exactly when score >= 70, the yellow band exactly when
    40 <= score < 70, and the red band exactly in every other case, that
    is when score >= 40 is false (a score below 40, or NaN). *)
Theorem getScoreColor_thresholds (score : JS.number) :
  (getScoreColor score = "from-emerald-500 to-green-600"
   <-> JS.ge score (JS.of_Z 70) = true)
  /\ (getScoreColor score = "from-yellow-500 to-orange-500"
      <-> JS.ge score (JS.of_Z 40) = true /\ JS.lt score (JS.of_Z 70) = true)
  /\ (getScoreColor score = "from-red-500 to-rose-600"
      <-> JS.ge score (JS.of_Z 70) = false
          /\ ~ (JS.ge score (JS.of_Z 40) = true
                /\ JS.lt score (JS.of_Z 70) = true))
  /\ (getScoreColor score = "from-red-500 to-rose-600"
      <-> JS.ge score (JS.of_Z 40) = false).
Proof.
  unfold getScoreColor.
  destruct (JS.ge score (JS.of_Z 70)) eqn:H70.
  - pose proof (ge_70_ge_40 score H70) as H40. rewrite H40.
    repeat split; intros; split_hyps; try discriminate; try reflexivity.
    apply lt_not_ge in H0. congruence.
  - destruct (JS.ge score (JS.of_Z 40)) eqn:H40.
    + assert (Hlt : JS.lt score (JS.of_Z 70) = true).
      { apply not_ge_lt; [exact H70|].
        change (JS.of_Z 70) with (S754_finite false 4925812092436480 (-46)).
        apply compare_with_finite, (ge_not_nan _ _ H40). }
      repeat split; intros; split_hyps; try discriminate; try reflexivity;
        try assumption.
      exfalso. apply H0. split; [reflexivity | assumption].
    + repeat split; intros; split_hyps; try discriminate; try reflexivity.
      intros [Hd _]; discriminate.
Qed.

(** On the integer scores 0..100 the bands are those of the integer
    comparisons. *)
Lemma getScoreColor_integer (z : Z) :
  0 <= z <= 100 ->
  getScoreColor (JS.of_Z z) =
    if 70 <=? z then "from-emerald-500 to-green-600"
    else if 40 <=? z then "from-yellow-500 to-orange-500"
    else "from-red-500 to-rose-600".
Proof.
  intros Hz.
  assert (Hall : forallb
            (fun n => String.eqb (getScoreColor (JS.of_Z (Z.of_nat n)))
               (if 70 <=? Z.of_nat n then "from-emerald-500 to-green-600"
                else if 40 <=? Z.of_nat n then "from-yellow-500 to-orange-500"
                else "from-red-500 to-rose-600"))
            (seq 0 101) = true) by (vm_compute; reflexivity).
  rewrite forallb_forall in Hall.
  specialize (Hall (Z.to_nat z)).
  rewrite Z2Nat.id in Hall by lia.
  apply String.eqb_eq, Hall, in_seq. lia.
Qed.

(** ** LegitimacyAnalyzer: what a signed-out viewer is given *)

Section Legitimacy.

Import LegitimacyAnalyzer.

Local Arguments detailBlocks : simpl never.

Lemma testimonial_at (i : Z) :
  0 <= i < 4 -> exists t, JS.index testimonials i = Some t.
Proof.
  intros Hi.
  assert (Hc : i = 0 \/ i = 1 \/ i = 2 \/ i = 3) by lia.
  destruct Hc as [-> | [-> | [-> | ->]]]; eexists; reflexivity.
Qed.

Lemma rem_in_range (i n : Z) : 0 <= i < n -> 0 <= Z.rem (i + 1) n < n.
Proof.
  intros Hi. rewrite Z.rem_mod_nonneg by lia.
  apply Z.mod_pos_bound. lia.
Qed.


Lemma findingsShown_app_skip (pre post : list block) :
  findingsShown pre = None ->
  findingsShown (pre ++ post) = findingsShown post.
Proof.
  induction pre as [|b pre IH]; simpl; [reflexivity|].
  destruct b; auto; discriminate.
Qed.

Lemma aiAnalysisBlock_no_findings (r : AnalysisResult) :
  findingsShown (aiAnalysisBlock r) = None.
Proof.
  unfold aiAnalysisBlock.
  destruct (aiAnalysis r) as [a|]; [destruct (JS.truthy a)|]; reflexivity.
Qed.

Lemma peopleExperienceBlock_no_findings (r : AnalysisResult) :
  findingsShown (peopleExperienceBlock r) = None.
Proof.
  unfold peopleExperienceBlock. destruct (peopleExperience r); reflexivity.
Qed.

Lemma detailBlocks_findings (viewer : option User) (r : AnalysisResult)
  (t : Testimonial) (i : Z) :
  findingsShown (detailBlocks viewer r t i) = Some (findings r).
Proof.
  unfold detailBlocks.
  rewrite findingsShown_app_skip by (destruct viewer; reflexivity).
  simpl.
  rewrite findingsShown_app_skip by apply aiAnalysisBlock_no_findings.
  rewrite findingsShown_app_skip by apply peopleExperienceBlock_no_findings.
  reflexivity.
Qed.

Lemma detailBlocks_aiAnalysis (viewer : option User) (r : AnalysisResult)
  (t : Testimonial) (i : Z) :
  aiAnalysisShown (detailBlocks viewer r t i) =
    match aiAnalysis r with
    | Some a => if JS.truthy a then Some a else None
    | None => None
    end.
Proof.
  unfold detailBlocks, aiAnalysisBlock, peopleExperienceBlock.
  destruct viewer, (aiAnalysis r) as [a|]; simpl;
    try destruct (JS.truthy a); simpl;
    destruct (peopleExperience r); reflexivity.
Qed.

Lemma detailBlocks_overlay (viewer : option User) (r : AnalysisResult)
  (t : Testimonial) (i : Z) :
  overlayShown (detailBlocks viewer r t i) =
    match viewer with None => true | Some _ => false end.
Proof.
  unfold detailBlocks, aiAnalysisBlock, peopleExperienceBlock.
  destruct viewer, (aiAnalysis r) as [a|]; simpl;
    try destruct (JS.truthy a); simpl;
    destruct (peopleExperience r); reflexivity.
Qed.

(** C2, as stated, fails: the section rendered for a signed-out viewer
    carries the findings and the AI analysis of the result; they sit under
    the sign-in overlay. *)
Lemma signed_out_viewer_is_given_findings :
  user sampleState = None
  /\ disclosed sampleState =
     JS.Normal (Some
       {| d_url := "https://example.com";
          d_trustScore := JS.of_Z 72;
          d_verdict := "Legit";
          d_overlay := true;
          d_findings := Some [ {| type := warning; text := "Domain is 40 days old" |} ];
          d_aiAnalysis := Some "No strong scam signals." |}).
Proof. split; reflexivity. Qed.

(** C2, amended: for every result and every signed-out viewer the rendered
    section always shows the url, the score and the verdict, and it puts
    the sign-in overlay first among the details; the details under the
    overlay are those a signed-in viewer gets, with the findings and with
    the AI analysis when that text is not empty.  No block shows redFlags:
    the section is the same whatever the result's redFlags are. *)
Theorem signed_out_viewer_gets_overlay_over_details
  (s : State) (r : AnalysisResult) :
  user s = None ->
  result s = Some r ->
  0 <= currentTestimonial s < 4 ->
  exists (rs : ResultSection) (t : Testimonial),
    render_result s = JS.Normal (Some rs)
    /\ d_url (disclosure rs) = url r
    /\ d_trustScore (disclosure rs) = trustScore r
    /\ d_verdict (disclosure rs) = verdict r
    /\ d_overlay (disclosure rs) = true
    /\ (forall u : User,
          details rs =
            SignInOverlay :: detailBlocks (Some u) r t (currentTestimonial s))
    /\ d_findings (disclosure rs) = Some (findings r)
    /\ d_aiAnalysis (disclosure rs) =
         match aiAnalysis r with
         | Some a => if JS.truthy a then Some a else None
         | None => None
         end
    /\ (forall flags : list string,
          render_result { s with result := Some { r with redFlags := flags } }
          = render_result s).
Proof.
  intros Hu Hr Hi.
  destruct (testimonial_at _ Hi) as [t Ht].
  assert (Hflags : forall flags : list string,
             render_result
               { s with result := Some { r with redFlags := flags } }
             = render_result s).
  { intros flags. unfold render_result.
    change (result { s with result := Some { r with redFlags := flags } })
      with (Some { r with redFlags := flags }).
    change (user { s with result := Some { r with redFlags := flags } })
      with (user s).
    change (currentTestimonial
              { s with result := Some { r with redFlags := flags } })
      with (currentTestimonial s).
    rewrite Hr, Ht. reflexivity. }
  unfold render_result at 1. rewrite Hr, Ht, Hu.
  eexists. exists t. split; [reflexivity|].
  cbn [disclosure d_url d_trustScore d_verdict d_overlay d_findings
       d_aiAnalysis trust_score_section details shown_url shown_trustScore
       shown_verdict].
  rewrite detailBlocks_findings, detailBlocks_aiAnalysis, detailBlocks_overlay.
  repeat split; try reflexivity.
  exact Hflags.
Qed.

Lemma signed_out_viewer_gets_overlay_over_details_witness :
  exists (rs : ResultSection) (t : Testimonial),
    render_result sampleState = JS.Normal (Some rs)
    /\ d_url (disclosure rs) = url sampleResult
    /\ d_trustScore (disclosure rs) = trustScore sampleResult
    /\ d_verdict (disclosure rs) = verdict sampleResult
    /\ d_overlay (disclosure rs) = true
    /\ (forall u : User,
          details rs =
            SignInOverlay
            :: detailBlocks (Some u) sampleResult t
                 (currentTestimonial sampleState))
    /\ d_findings (disclosure rs) = Some (findings sampleResult)
    /\ d_aiAnalysis (disclosure rs) =
         match aiAnalysis sampleResult with
         | Some a => if JS.truthy a then Some a else None
         | None => None
         end
    /\ (forall flags : list string,
          render_result
            { sampleState with
              result := Some { sampleResult with redFlags := flags } }
          = render_result sampleState).
Proof.
  apply (signed_out_viewer_gets_overlay_over_details sampleState sampleResult).
  - reflexivity.
  - reflexivity.
  - simpl. lia.
Defined.

(** C8: the gating is a function of the pair (viewer, result) alone: two
    states of the component with the same user and the same result
    disclose the same subset, whatever the url field, the progress steps,
    the error, the modal or the testimonial on show are; a second render
    pass returns what the first returned; and a render pass leaves the
    state, and so the viewer and the result, as they were. *)
Theorem disclosure_is_pure_and_idempotent (s s' : State) :
  user s = user s' ->
  result s = result s' ->
  0 <= currentTestimonial s < 4 ->
  0 <= currentTestimonial s' < 4 ->
  disclosed s = disclosed s'
  /\ fst (render_pass (snd (render_pass s))) = fst (render_pass s)
  /\ snd (render_pass s) = s
  /\ user (snd (render_pass s)) = user s
  /\ result (snd (render_pass s)) = result s.
Proof.
  intros Hu Hr Hi Hi'.
  split; [|repeat split; reflexivity].
  unfold disclosed, render_result.
  rewrite <- Hr, <- Hu.
  destruct (result s) as [r|]; [|reflexivity].
  destruct (testimonial_at _ Hi) as [t Ht].
  destruct (testimonial_at _ Hi') as [t' Ht'].
  rewrite Ht, Ht'.
  cbn [JS.bind option_map]. unfold disclosure.
  cbn [trust_score_section details shown_url shown_trustScore shown_verdict].
  rewrite !detailBlocks_findings, !detailBlocks_aiAnalysis,
    !detailBlocks_overlay.
  reflexivity.
Qed.

Lemma disclosure_is_pure_and_idempotent_witness :
  disclosed sampleState = disclosed (handle TestimonialTimer (handle ClickSignIn sampleState))
  /\ fst (render_pass (snd (render_pass sampleState)))
     = fst (render_pass sampleState)
  /\ snd (render_pass sampleState) = sampleState
  /\ user (snd (render_pass sampleState)) = user sampleState
  /\ result (snd (render_pass sampleState)) = result sampleState.
Proof.
  apply (disclosure_is_pure_and_idempotent sampleState
           (handle TestimonialTimer (handle ClickSignIn sampleState))).
  - reflexivity.
  - reflexivity.
  - change (0 <= 0 < 4). lia.
  - change (0 <= 1 < 4). lia.
Defined.

End Legitimacy.

(** ** JobAnalyzer: the same overlay, and the validation of analyzeJob *)

Section Job.

Import JobAnalyzer.

(** The job details, red flags included, are rendered under the overlay
    for a signed-out viewer exactly as for a signed-in one. *)
Lemma job_details_under_overlay (s : State) (r : JobAnalysisResult) :
  user s = None ->
  result s = Some r ->
  exists rs : ResultSection,
    render_result s = Some rs
    /\ (forall u : User, details rs = SignInOverlay :: detailBlocks (Some u) r)
    /\ (redFlags r <> [] -> In (DetectedRedFlagsCard (redFlags r)) (details rs)).
Proof.
  intros Hu Hr. unfold render_result. rewrite Hr, Hu.
  eexists. split; [reflexivity|]. cbn [details]. split; [reflexivity|].
  intros Hne. unfold detailBlocks.
  apply in_or_app; right. apply in_or_app; right.
  apply in_or_app; right. apply in_or_app; left.
  destruct (redFlags r); [congruence | left; reflexivity].
Qed.

(** C4: with job_url and job_description both empty, analyzeJob sets the
    error that names the two fields, hands nothing to the browser (no
    request, no timer) and leaves result, analysisSteps, analyzing and
    every other state cell as they were. *)
Theorem analyzeJob_rejects_empty_input (s : State) :
  job_url (formData s) = "" ->
  job_description (formData s) = "" ->
  snd (analyzeJob s) = []
  /\ existsb is_request (snd (analyzeJob s)) = false
  /\ error (fst (analyzeJob s))
     = Some "Please provide either a job URL or job description"
  /\ result (fst (analyzeJob s)) = result s
  /\ analysisSteps (fst (analyzeJob s)) = analysisSteps s
  /\ analyzing (fst (analyzeJob s)) = analyzing s
  /\ formData (fst (analyzeJob s)) = formData s
  /\ user (fst (analyzeJob s)) = user s
  /\ showAuthModal (fst (analyzeJob s)) = showAuthModal s
  /\ hasScrolledToResults (fst (analyzeJob s)) = hasScrolledToResults s.
Proof.
  intros Hurl Hdesc. unfold analyzeJob. rewrite Hurl, Hdesc.
  change (negb (JS.truthy "") && negb (JS.truthy "")) with true.
  cbv iota. repeat split; reflexivity.
Qed.

Lemma analyzeJob_rejects_empty_input_witness :
  snd (analyzeJob (initial None)) = []
  /\ existsb is_request (snd (analyzeJob (initial None))) = false
  /\ error (fst (analyzeJob (initial None)))
     = Some "Please provide either a job URL or job description"
  /\ result (fst (analyzeJob (initial None))) = result (initial None)
  /\ analysisSteps (fst (analyzeJob (initial None)))
     = analysisSteps (initial None)
  /\ analyzing (fst (analyzeJob (initial None))) = analyzing (initial None)
  /\ formData (fst (analyzeJob (initial None))) = formData (initial None)
  /\ user (fst (analyzeJob (initial None))) = user (initial None)
  /\ showAuthModal (fst (analyzeJob (initial None)))
     = showAuthModal (initial None)
  /\ hasScrolledToResults (fst (analyzeJob (initial None)))
     = hasScrolledToResults (initial None).
Proof.
  apply (analyzeJob_rejects_empty_input (initial None)).
  - reflexivity.
  - reflexivity.
Defined.

(** With either field filled in, analyzeJob does dispatch the request. *)
Lemma analyzeJob_dispatches (s : State) :
  job_url (formData s) <> "" \/ job_description (formData s) <> "" ->
  In (PostAnalyzeJob (formData s)) (snd (analyzeJob s))
  /\ analyzing (fst (analyzeJob s)) = true
  /\ error (fst (analyzeJob s)) = None.
Proof.
  intros H. unfold analyzeJob, JS.truthy.
  destruct (String.eqb_spec (job_url (formData s)) "") as [Hu|Hu];
    destruct (String.eqb_spec (job_description (formData s)) "") as [Hd|Hd];
    cbn [negb andb fst snd]; try tauto;
    (split; [apply in_or_app; right; left; reflexivity | split; reflexivity]).
Qed.

End Job.

(** ** The score aggregator of the specification *)

Section Aggregator.

Import Aggregation.

Lemma critical_signal_found (signals : list (string * SignalValue)) :
  (exists name v, In (name, v) signals /\ severity v = Some critical) ->
  existsb (fun e => is_critical (snd e)) signals = true.
Proof.
  intros (name & v & Hin & Hsev).
  apply existsb_exists. exists (name, v). split; [exact Hin|].
  unfold is_critical. simpl. rewrite Hsev. reflexivity.
Qed.

(** C3: a signal map with at least one critical signal aggregates to score
    0 and the worst verdict, whatever the baseline, the adjustments and the
    other signals are; the frontend then paints the score red and shows
    its critical banner ([trustScore === 0]). *)
Theorem critical_signal_forces_zero_score
  (baseline : Z) (adjustment : string -> SignalValue -> Z)
  (tgt : string) (signals : list (string * SignalValue)) :
  (exists name v, In (name, v) signals /\ severity v = Some critical) ->
  exists r : AnalysisResult,
    aggregate baseline adjustment tgt signals = Some r
    /\ score r = 0
    /\ verdict r = Scam
    /\ getScoreColor (JS.of_Z (score r)) = "from-red-500 to-rose-600"
    /\ JS.strict_eq (JS.of_Z (score r)) (JS.of_Z 0) = true.
Proof.
  intros Hc. pose proof (critical_signal_found signals Hc) as Hex.
  unfold aggregate.
  destruct signals as [|e rest].
  - destruct Hc as (name & v & [] & _).
  - rewrite Hex. eexists. split; [reflexivity|].
    cbn [score verdict]. repeat split; reflexivity.
Qed.

Lemma critical_signal_forces_zero_score_witness :
  exists r : AnalysisResult,
    aggregate 50 (fun _ _ => 10) "https://example.com"
      [ ("ssl", {| kind := "ssl-status"; numericValue := Some 1; flags := [];
                   severity := Some info |});
        ("malware", {| kind := "malware"; numericValue := None;
                       flags := ["phishing"]; severity := Some critical |}) ]
    = Some r
    /\ score r = 0
    /\ verdict r = Scam
    /\ getScoreColor (JS.of_Z (score r)) = "from-red-500 to-rose-600"
    /\ JS.strict_eq (JS.of_Z (score r)) (JS.of_Z 0) = true.
Proof.
  apply critical_signal_forces_zero_score.
  exists "malware".
  exists {| kind := "malware"; numericValue := None; flags := ["phishing"];
            severity := Some critical |}.
  split; [right; left; reflexivity | reflexivity].
Defined.

(** Without a critical signal the score is the clamped weighted sum and
    the verdict follows the thresholds. *)
Lemma aggregate_without_critical
  (baseline : Z) (adjustment : string -> SignalValue -> Z)
  (tgt : string) (signals : list (string * SignalValue)) :
  signals <> [] ->
  existsb (fun e => is_critical (snd e)) signals = false ->
  exists r : AnalysisResult,
    aggregate baseline adjustment tgt signals = Some r
    /\ 0 <= score r <= 100
    /\ verdict r = verdictOf (score r).
Proof.
  intros Hne Hnc. unfold aggregate.
  destruct signals as [|e rest]; [congruence|].
  rewrite Hnc. eexists. split; [reflexivity|].
  cbn [score verdict]. unfold weightedScore, clamp. split; [lia | reflexivity].
Qed.

End Aggregator.

(** ** CommentsSection: submission, the empty summary, the rating *)

Section Comments.

Import CommentsSection.

Lemma truthy_nonempty (str : string) : JS.truthy str = true <-> str <> "".
Proof.
  unfold JS.truthy. destruct (String.eqb_spec str ""); simpl; split;
    congruence.
Qed.

Lemma truthy_empty (str : string) : JS.truthy str = false <-> str = "".
Proof.
  unfold JS.truthy. destruct (String.eqb_spec str ""); simpl; split;
    congruence.
Qed.

(** C5: handleSubmit issues the POST exactly when user_name and comment
    are both non-empty, and then it is the one request, carrying the form
    and the url; when either is empty it returns with no request and the
    state as it was, and the submit button is disabled. *)
Theorem handleSubmit_posts_iff_name_and_comment (url : string) (s : State) :
  (existsb is_post_comment (snd (handleSubmit url s)) = true
   <-> user_name (formData s) <> "" /\ comment (formData s) <> "")
  /\ (user_name (formData s) <> "" /\ comment (formData s) <> ""
      <-> snd (handleSubmit url s) = [PostComment (formData s) url])
  /\ (user_name (formData s) = "" \/ comment (formData s) = ""
      <-> handleSubmit url s = (s, []))
  /\ (user_name (formData s) = "" \/ comment (formData s) = ""
      -> submitDisabled s = true).
Proof.
  unfold handleSubmit, submitDisabled, JS.truthy.
  destruct (String.eqb_spec (user_name (formData s)) "") as [Hn|Hn];
    destruct (String.eqb_spec (comment (formData s)) "") as [Hc|Hc];
    cbn [negb orb fst snd existsb is_post_comment];
    repeat split; intros; split_hyps;
    try congruence; try discriminate; try reflexivity; try tauto;
    try (destruct (submitting s); reflexivity).
Qed.

(** C6: the summary of no comments has average_rating 0, scam_reports 0,
    total_comments 0 and every experience bucket 0, and these are the
    values the stats state of CommentsSection starts with. *)
Theorem empty_comment_set_summary_is_zero :
  Aggregation.summarize []
  = {| Aggregation.total_comments := 0;
       Aggregation.average_rating := 0%Q;
       Aggregation.scam_reports := 0;
       Aggregation.experience_breakdown :=
         {| positive := 0; neutral := 0; negative := 0 |} |}
  /\ stats initial
     = {| total_comments := 0;
          average_rating := JS.of_Z 0;
          scam_reports := 0;
          experience_breakdown :=
            {| positive := 0; neutral := 0; negative := 0 |} |}
  /\ total_comments (stats initial)
     = Aggregation.total_comments (Aggregation.summarize [])
  /\ JS.strict_eq (average_rating (stats initial)) (JS.of_Z 0) = true
  /\ scam_reports (stats initial)
     = Aggregation.scam_reports (Aggregation.summarize [])
  /\ experience_breakdown (stats initial)
     = Aggregation.experience_breakdown (Aggregation.summarize []).
Proof. repeat split; reflexivity. Qed.

(** The buckets of a summary never count more than the comments. *)
Lemma countIf_le_length (p : Comment -> bool) (cs : list Comment) :
  Aggregation.countIf p cs <= Z.of_nat (List.length cs).
Proof.
  unfold Aggregation.countIf. apply inj_le.
  induction cs as [|c cs IH]; simpl; [lia|].
  destruct (p c); simpl; lia.
Qed.

Section WithURL.

Variable URL_hostname : string -> JS.completion string.

Lemma handle_keeps_rating (url : string) (s : State) (ev : event) :
  offered s ev ->
  1 <= rating (formData s) <= 5 ->
  1 <= rating (formData (fst (handle URL_hostname url ev s))) <= 5.
Proof.
  intros Hoff Hr. destruct ev; cbn [handle fst]; try exact Hr.
  - (* a star button *)
    destruct Hoff as [_ Hin]. cbn [formData rating apply_update constant].
    unfold starButtons in Hin. simpl in Hin.
    change (1 <= star <= 5). lia.
  - (* submit *)
    unfold handleSubmit.
    destruct (negb (JS.truthy (user_name (formData s)))
              || negb (JS.truthy (comment (formData s)))); exact Hr.
  - (* the POST settled: the form is reset on success *)
    destruct r; cbn [handleSubmitSettled fst]; try exact Hr.
    change (1 <= 5 <= 5). lia.
  - (* comments loaded *)
    destruct r; exact Hr.
Qed.

End WithURL.

(** C7: in every reachable state of the component the form's rating is in
    [1,5], and so is the rating of every comment handleSubmit posts. *)
Theorem rating_always_in_1_5
  (URL_hostname : string -> JS.completion string) (url : string) (s : State) :
  reachable URL_hostname url s ->
  1 <= rating (formData s) <= 5
  /\ (forall body target,
        In (PostComment body target) (snd (handleSubmit url s)) ->
        1 <= rating body <= 5).
Proof.
  intros Hreach.
  assert (Hr : 1 <= rating (formData s) <= 5).
  { induction Hreach as [|s ev Hs IH Hoff].
    - change (1 <= 5 <= 5). lia.
    - apply handle_keeps_rating; assumption. }
  split; [exact Hr|].
  intros body target. unfold handleSubmit.
  destruct (negb (JS.truthy (user_name (formData s)))
            || negb (JS.truthy (comment (formData s))));
    cbn [snd]; intros Hin.
  - destruct Hin.
  - destruct Hin as [Heq|[]]. inversion Heq; subst. exact Hr.
Qed.

Lemma rating_always_in_1_5_witness :
  1 <= rating (formData
        (fst (handle (fun h => JS.Normal h) "example.com" (ClickStar 3)
           (fst (handle (fun h => JS.Normal h) "example.com" ToggleForm
              initial))))) <= 5
  /\ (forall body target,
        In (PostComment body target)
           (snd (handleSubmit "example.com"
              (fst (handle (fun h => JS.Normal h) "example.com" (ClickStar 3)
                 (fst (handle (fun h => JS.Normal h) "example.com" ToggleForm
                    initial)))))) ->
        1 <= rating body <= 5).
Proof.
  apply (rating_always_in_1_5 (fun h => JS.Normal h) "example.com").
  apply reachable_handle.
  - apply reachable_handle.
    + apply reachable_initial.
    + exact I.
  - split; [reflexivity | simpl; tauto].
Defined.

End Comments.

(** ** toFixed(1) prints one decimal *)

Lemma string_length_append (a b : string) :
  String.length (a ++ b) = (String.length a + String.length b)%nat.
Proof. induction a as [|c a IH]; simpl; [reflexivity | rewrite IH; reflexivity]. Qed.

Lemma string_length_substring (str : string) (n m : nat) :
  (n + m <= String.length str)%nat -> String.length (substring n m str) = m.
Proof.
  revert n m. induction str as [|c str IH]; intros n m H.
  - simpl in H. assert (n = O) by lia. assert (m = O) by lia. subst.
    reflexivity.
  - destruct n as [|n].
    + destruct m as [|m]; [reflexivity|].
      simpl. rewrite IH; [reflexivity | simpl in H; lia].
    + simpl. apply IH. simpl in H. lia.
Qed.

Lemma string_length_zeros (n : nat) : String.length (JS.zeros n) = n.
Proof. induction n as [|n IH]; simpl; [reflexivity | rewrite IH; reflexivity]. Qed.

Lemma digits_of_nonempty (z : Z) : (1 <= String.length (JS.digits_of z))%nat.
Proof.
  unfold JS.digits_of, NilZero.string_of_uint.
  destruct (N.to_uint (Z.to_N z)); simpl; lia.
Qed.

Lemma fixed_digits_one_decimal (nd : Z * Z) :
  exists whole d : string,
    JS.fixed_digits nd 1 = whole ++ "." ++ d /\ String.length d = 1%nat.
Proof.
  unfold JS.fixed_digits.
  destruct (JS.scale10 nd 1) as [a b].
  change (1 =? 0) with false. cbv iota.
  set (m := JS.digits_of ((2 * a + b) / (2 * b))).
  pose proof (digits_of_nonempty ((2 * a + b) / (2 * b))) as Hm.
  fold m in Hm. cbv zeta.
  destruct (Z.leb_spec (Z.of_nat (String.length m)) 1) as [Hk|Hk].
  - assert (Hlen : String.length m = 1%nat) by lia.
    rewrite Hlen. change (Z.to_nat (1 + 1 - Z.of_nat 1)) with 1%nat.
    change (Z.to_nat (1 + 1 - 1)) with 1%nat. change (Z.to_nat 1) with 1%nat.
    eexists. eexists. split; [reflexivity|].
    apply string_length_substring.
    rewrite string_length_append, string_length_zeros. lia.
  - eexists. eexists. split; [reflexivity|].
    change (Z.to_nat 1) with 1%nat.
    apply string_length_substring. lia.
Qed.

(** For a finite number below 10^21, toFixed(1) is an optional sign, the
    digits before the point, the point and one digit. *)
Lemma toFixed_1_one_decimal (x : JS.number) :
  JS.below_1e21 x = true ->
  exists sign whole d : string,
    JS.toFixed x 1 = JS.Normal (sign ++ whole ++ "." ++ d)
    /\ (sign = "" \/ sign = "-")
    /\ String.length d = 1%nat.
Proof.
  intros Hx. unfold JS.toFixed.
  change ((1 <? 0) || (100 <? 1)) with false. cbv iota.
  destruct x as [s|s| |s m e]; try discriminate Hx.
  - destruct (fixed_digits_one_decimal (0, 1)) as (whole & d & Hf & Hd).
    exists "", whole, d. rewrite Hf. repeat split; auto.
  - cbn [JS.below_1e21] in Hx. rewrite Hx.
    destruct (fixed_digits_one_decimal (JS.exact m e)) as (whole & d & Hf & Hd).
    exists (if s then "-" else ""), whole, d. rewrite Hf.
    repeat split; [destruct s; auto | exact Hd].
Qed.

(** String and toFixed on numbers whose printed form is well known. *)
Example number_printing_examples :
  JS.to_string (JS.of_Z 999) = "999"
  /\ JS.to_string (JS.of_decimal 5 (-1)) = "0.5"
  /\ JS.to_string (JS.of_decimal 123456 (-3)) = "123.456"
  /\ JS.to_string (SFadd JS.prec JS.emax (JS.of_decimal 1 (-1))
                      (JS.of_decimal 2 (-1))) = "0.30000000000000004"
  /\ JS.to_string (JS.of_decimal 1 21) = "1e+21"
  /\ JS.to_string (JS.of_Z 123456789012345680000) = "123456789012345680000"
  /\ JS.to_string (JS.of_decimal 1 (-6)) = "0.000001"
  /\ JS.toFixed (JS.of_decimal 115 (-2)) 1 = JS.Normal "1.1"
  /\ JS.toFixed (JS.of_decimal 105 (-2)) 1 = JS.Normal "1.1"
  /\ JS.toFixed (JS.of_decimal 25 (-1)) 1 = JS.Normal "2.5"
  /\ JS.toFixed (JS.of_decimal 5 (-2)) 1 = JS.Normal "0.1"
  /\ JS.toFixed (JS.of_decimal 1 (-3)) 2 = JS.Normal "0.00"
  /\ JS.toFixed (JS.of_decimal 123456 (-3)) 0 = JS.Normal "123"
  /\ JS.toFixed (JS.of_decimal 1 21) 1 = JS.Normal "1e+21".
Proof. vm_compute. repeat split; reflexivity. Qed.

(** ** DynamicStats: formatCompact and the testimonial on show *)

Section Stats.

Import DynamicStats.

(** toFixed with one fraction digit never throws. *)
Lemma toFixed_1_returns (x : JS.number) :
  exists m : string, JS.toFixed x 1 = JS.Normal m.
Proof.
  unfold JS.toFixed.
  change ((1 <? 0) || (100 <? 1)) with false. cbv iota.
  destruct x as [s|s| |s m e]; try (eexists; reflexivity).
  destruct (JS.below_pow10 (JS.exact m e) 21); eexists; reflexivity.
Qed.

Lemma formatCompact_fallback_returns (value : JS.number) :
  exists str : string, formatCompact_fallback value = JS.Normal str.
Proof.
  unfold formatCompact_fallback.
  destruct (JS.ge value (JS.of_Z 1000000)).
  - destruct (toFixed_1_returns (JS.div value (JS.of_Z 1000000))) as [m Hm].
    rewrite Hm. eexists. reflexivity.
  - destruct (JS.ge value (JS.of_Z 1000)).
    + destruct (toFixed_1_returns (JS.div value (JS.of_Z 1000))) as [k Hk].
      rewrite Hk. eexists. reflexivity.
    + eexists. reflexivity.
Qed.

(** One decimal in the fallback: whenever the quotient is below 10^21 the
    text before the suffix is digits, a point and one digit. *)
Lemma formatCompact_fallback_one_decimal (value : JS.number) :
  (JS.ge value (JS.of_Z 1000000) = true ->
   JS.below_1e21 (JS.div value (JS.of_Z 1000000)) = true ->
   exists sign whole d : string,
     formatCompact_fallback value
     = JS.Normal ((sign ++ whole ++ "." ++ d) ++ "M")
     /\ String.length d = 1%nat)
  /\ (JS.ge value (JS.of_Z 1000000) = false ->
      JS.ge value (JS.of_Z 1000) = true ->
      JS.below_1e21 (JS.div value (JS.of_Z 1000)) = true ->
      exists sign whole d : string,
        formatCompact_fallback value
        = JS.Normal ((sign ++ whole ++ "." ++ d) ++ "K")
        /\ String.length d = 1%nat).
Proof.
  unfold formatCompact_fallback. split.
  - intros HM Hq. rewrite HM.
    destruct (toFixed_1_one_decimal _ Hq) as (sign & whole & d & Hf & _ & Hd).
    exists sign, whole, d. rewrite Hf. split; [reflexivity | exact Hd].
  - intros HM HK Hq. rewrite HM, HK.
    destruct (toFixed_1_one_decimal _ Hq) as (sign & whole & d & Hf & _ & Hd).
    exists sign, whole, d. rewrite Hf. split; [reflexivity | exact Hd].
Qed.

Lemma ge_1000_of_ge_1000000 (value : JS.number) :
  JS.ge value (JS.of_Z 1000000) = true -> JS.ge value (JS.of_Z 1000) = true.
Proof.
  change (JS.of_Z 1000000) with (S754_finite false 8589934592000000 (-33)).
  change (JS.of_Z 1000) with (S754_finite false 8796093022208000 (-43)).
  unfold JS.ge, SFleb.
  destruct value as [s|s| |s m e]; cbv beta iota delta [SFcompare];
    try congruence; try (destruct s; congruence).
  destruct s; try congruence.
  destruct (Z.compare_spec (-33) e) as [H|H|H];
    destruct (Z.compare_spec (-43) e) as [H'|H'|H']; try lia; congruence.
Qed.

(** C9, as stated, fails at the far ends of the numbers: with the Intl
    formatter missing, 1e28 is printed as 1e+22M, which has the suffix but
    no decimal, and 1e-7 as 1e-7, which is not a plain decimal string. *)
Lemma formatCompact_exponent_notation_at_extremes :
  formatCompact (fun _ => JS.Throw (JS.ReferenceError "Intl is not defined"))
    (JS.of_decimal 1 28) = JS.Normal "1e+22M"
  /\ String.index 0 "." "1e+22M" = None
  /\ JS.is_finite (JS.of_decimal 1 28) = true
  /\ JS.ge (JS.of_decimal 1 28) (JS.of_Z 1000000) = true
  /\ formatCompact (fun _ => JS.Throw (JS.ReferenceError "Intl is not defined"))
       (JS.of_decimal 1 (-7)) = JS.Normal "1e-7"
  /\ JS.is_finite (JS.of_decimal 1 (-7)) = true
  /\ JS.ge (JS.of_decimal 1 (-7)) (JS.of_Z 0) = true.
Proof. vm_compute. repeat split; reflexivity. Qed.

(** C9, amended: formatCompact returns a string for every number, whether
    the Intl formatter returns or throws, and never throws itself.  When
    the formatter throws, the result is (value / 1,000,000).toFixed(1)
    followed by M for a value of at least 1,000,000, (value / 1,000)
    .toFixed(1) followed by K for a value of at least 1,000 below that, and
    String(value) otherwise; the toFixed(1) text is digits, a point and one
    decimal whenever the quotient is below 10^21.  When the formatter
    returns, the result is its string. *)
Theorem formatCompact_total_and_fallback
  (Intl_compact_format : JS.number -> JS.completion string)
  (value : JS.number) :
  (exists str : string,
      formatCompact Intl_compact_format value = JS.Normal str)
  /\ (forall str : string,
        Intl_compact_format value = JS.Normal str ->
        formatCompact Intl_compact_format value = JS.Normal str)
  /\ (forall e : JS.exn,
        Intl_compact_format value = JS.Throw e ->
        (JS.ge value (JS.of_Z 1000000) = true ->
         exists m : string,
           JS.toFixed (JS.div value (JS.of_Z 1000000)) 1 = JS.Normal m
           /\ formatCompact Intl_compact_format value = JS.Normal (m ++ "M")
           /\ (JS.below_1e21 (JS.div value (JS.of_Z 1000000)) = true ->
               exists sign whole d : string,
                 m = sign ++ whole ++ "." ++ d
                 /\ String.length d = 1%nat))
        /\ (JS.ge value (JS.of_Z 1000000) = false ->
            JS.ge value (JS.of_Z 1000) = true ->
            exists k : string,
              JS.toFixed (JS.div value (JS.of_Z 1000)) 1 = JS.Normal k
              /\ formatCompact Intl_compact_format value
                 = JS.Normal (k ++ "K")
              /\ (JS.below_1e21 (JS.div value (JS.of_Z 1000)) = true ->
                  exists sign whole d : string,
                    k = sign ++ whole ++ "." ++ d
                    /\ String.length d = 1%nat))
        /\ (JS.ge value (JS.of_Z 1000) = false ->
            formatCompact Intl_compact_format value
            = JS.Normal (JS.to_string value))).
Proof.
  unfold formatCompact, JS.try_catch.
  destruct (Intl_compact_format value) as [str0|e0].
  - split; [exists str0; reflexivity|].
    split; [intros str H; exact H | intros e H; discriminate H].
  - split; [apply formatCompact_fallback_returns|].
    split; [intros str H; discriminate H|].
    intros _ _. unfold formatCompact_fallback.
    split; [|split].
    + intros HM. rewrite HM.
      destruct (toFixed_1_returns (JS.div value (JS.of_Z 1000000))) as [m Hm].
      exists m. rewrite Hm. split; [reflexivity|]. split; [reflexivity|].
      intros Hq.
      destruct (toFixed_1_one_decimal _ Hq) as (sign & whole & d & Hf & _ & Hd).
      exists sign, whole, d. split; [congruence | exact Hd].
    + intros HM HK. rewrite HM, HK.
      destruct (toFixed_1_returns (JS.div value (JS.of_Z 1000))) as [k Hk].
      exists k. rewrite Hk. split; [reflexivity|]. split; [reflexivity|].
      intros Hq.
      destruct (toFixed_1_one_decimal _ Hq) as (sign & whole & d & Hf & _ & Hd).
      exists sign, whole, d. split; [congruence | exact Hd].
    + intros HK.
      destruct (JS.ge value (JS.of_Z 1000000)) eqn:HM.
      * rewrite (ge_1000_of_ge_1000000 value HM) in HK. discriminate HK.
      * rewrite HK. reflexivity.
Qed.

Lemma formatCompact_total_and_fallback_witness :
  exists m : string,
    JS.toFixed (JS.div (JS.of_Z 1500000) (JS.of_Z 1000000)) 1 = JS.Normal m
    /\ formatCompact
         (fun _ => JS.Throw (JS.ReferenceError "Intl is not defined"))
         (JS.of_Z 1500000) = JS.Normal (m ++ "M")
    /\ (JS.below_1e21 (JS.div (JS.of_Z 1500000) (JS.of_Z 1000000)) = true ->
        exists sign whole d : string,
          m = sign ++ whole ++ "." ++ d /\ String.length d = 1%nat).
Proof.
  apply (proj1 (proj2 (proj2 (formatCompact_total_and_fallback
                  (fun _ => JS.Throw (JS.ReferenceError "Intl is not defined"))
                  (JS.of_Z 1500000)))
                (JS.ReferenceError "Intl is not defined") eq_refl)).
  vm_compute. reflexivity.
Defined.

(** The fallback on the statistics the component shows and around them. *)
Example formatCompact_fallback_examples :
  formatCompact_fallback (JS.of_Z 1500000) = JS.Normal "1.5M"
  /\ formatCompact_fallback (JS.of_Z 1000000) = JS.Normal "1.0M"
  /\ formatCompact_fallback (JS.of_Z 120000) = JS.Normal "120.0K"
  /\ formatCompact_fallback (JS.of_Z 10024) = JS.Normal "10.0K"
  /\ formatCompact_fallback (JS.of_Z 5050) = JS.Normal "5.0K"
  /\ formatCompact_fallback (JS.of_Z 2500) = JS.Normal "2.5K"
  /\ formatCompact_fallback (JS.of_Z 1000) = JS.Normal "1.0K"
  /\ formatCompact_fallback (JS.of_Z 999) = JS.Normal "999"
  /\ formatCompact_fallback (JS.of_decimal 5 (-1)) = JS.Normal "0.5"
  /\ formatCompact_fallback (JS.of_Z 0) = JS.Normal "0".
Proof. vm_compute. repeat split; reflexivity. Qed.

(** From 10^21 on toFixed itself prints in exponent notation, and String
    does so below 10^-6: the fallback passes both on. *)
Example formatCompact_fallback_extremes :
  formatCompact_fallback (JS.of_decimal 1 28) = JS.Normal "1e+22M"
  /\ formatCompact_fallback (JS.of_decimal 1 (-7)) = JS.Normal "1e-7"
  /\ formatCompact_fallback JS.Infinity = JS.Normal "InfinityM"
  /\ formatCompact_fallback JS.NaN = JS.Normal "NaN".
Proof. vm_compute. repeat split; reflexivity. Qed.

(** The index [(prev + 1) % length] stays inside the array. *)
Lemma rotate_in_range (s : State) :
  0 <= currentTestimonial s < Z.of_nat (List.length testimonials) ->
  0 <= currentTestimonial (rotateTestimonial s)
    < Z.of_nat (List.length testimonials).
Proof.
  intros Hi. unfold rotateTestimonial.
  destruct (testimonialPaused s); [exact Hi|].
  cbn [currentTestimonial apply_update constant].
  apply rem_in_range. exact Hi.
Qed.

Lemma dotButtons_in_range (index : Z) :
  In index dotButtons -> 0 <= index < Z.of_nat (List.length testimonials).
Proof.
  unfold dotButtons. intros Hin.
  apply in_map_iff in Hin. destruct Hin as (n & <- & Hn).
  apply in_seq in Hn. lia.
Qed.

Lemma index_in_bounds {A : Type} (l : list A) (i : Z) :
  0 <= i < Z.of_nat (List.length l) -> exists a, JS.index l i = Some a.
Proof.
  intros Hi. unfold JS.index.
  destruct (Z.ltb_spec i 0) as [Hneg|_]; [lia|].
  destruct (nth_error l (Z.to_nat i)) as [a|] eqn:Hnth.
  - exists a. reflexivity.
  - apply nth_error_None in Hnth. lia.
Qed.

(** C10: in every reachable state of DynamicStats the current-testimonial
    index is in [0, testimonials.length), so testimonials[currentTestimonial]
    is an element of the array. *)
Theorem currentTestimonial_in_bounds (s : State) :
  reachable s ->
  0 <= currentTestimonial s < Z.of_nat (List.length testimonials)
  /\ exists t : Testimonial, current s = Some t.
Proof.
  intros Hreach.
  assert (Hi : 0 <= currentTestimonial s
               < Z.of_nat (List.length testimonials)).
  { induction Hreach as [|s ev Hs IH Hoff].
    - change (0 <= 0 < 3). lia.
    - destruct ev; cbn [handle]; try exact IH.
      + unfold loadBegin. destruct isInitial; exact IH.
      + unfold loadSettled. destruct isInitial, r; exact IH.
      + apply rotate_in_range. exact IH.
      + apply dotButtons_in_range. exact Hoff. }
  split; [exact Hi|].
  apply index_in_bounds. exact Hi.
Qed.

Lemma currentTestimonial_in_bounds_witness :
  0 <= currentTestimonial
         (handle TestimonialTimer (handle (ClickDot 2) initial))
    < Z.of_nat (List.length testimonials)
  /\ exists t : Testimonial,
       current (handle TestimonialTimer (handle (ClickDot 2) initial))
       = Some t.
Proof.
  apply (currentTestimonial_in_bounds
           (handle TestimonialTimer (handle (ClickDot 2) initial))).
  apply reachable_handle.
  - apply reachable_handle.
    + apply reachable_initial.
    + simpl. tauto.
  - exact I.
Defined.

(** From the last testimonial the timer wraps to the first. *)
Example rotation_wraps :
  currentTestimonial (handle TestimonialTimer (handle (ClickDot 2) initial)) = 0.
Proof. reflexivity. Qed.

End Stats.

(* ================================================================== *)
(** * Further properties of the components *)
(* ================================================================== *)

(** ** LegitimacyAnalyzer: rendering, analysis runs, the scroll prompt *)

Section LegitimacyRuns.

Import LegitimacyAnalyzer.

Local Arguments detailBlocks : simpl never.



Lemma analyzeWebsite_accepts (s : State) :
  st_url s <> "" ->
  analyzeWebsite s
  = ({ s with analyzing := true; analysisSteps := []; result := None;
              error := None },
     (map (fun step => SetTimeout (delay step) step) steps
      ++ [PostAnalyze (st_url s)])%list).
Proof.
  intros Hne. unfold analyzeWebsite, JS.truthy.
  apply String.eqb_neq in Hne. rewrite Hne. reflexivity.
Qed.

(** X2: analyzeWebsite with an empty url does nothing at all (no error, no
    request); with a url it starts the eight step timers and then sends the
    one POST carrying that url, after clearing result and error.  The
    Analyze button is disabled exactly when it is busy or would do
    nothing. *)
Theorem analyzeWebsite_guard (s : State) :
  (st_url s = "" -> analyzeWebsite s = (s, []))
  /\ (st_url s <> "" ->
      snd (analyzeWebsite s)
      = (map (fun step => SetTimeout (delay step) step) steps
         ++ [PostAnalyze (st_url s)])%list
      /\ List.length (filter is_post (snd (analyzeWebsite s))) = 1%nat
      /\ analyzing (fst (analyzeWebsite s)) = true
      /\ result (fst (analyzeWebsite s)) = None
      /\ error (fst (analyzeWebsite s)) = None
      /\ analysisSteps (fst (analyzeWebsite s)) = []
      /\ user (fst (analyzeWebsite s)) = user s
      /\ st_url (fst (analyzeWebsite s)) = st_url s)
  /\ (existsb is_post (snd (analyzeWebsite s)) = true <-> st_url s <> "")
  /\ (analyzeDisabled s = false <-> analyzing s = false /\ st_url s <> "").
Proof.
  unfold analyzeWebsite, analyzeDisabled, JS.truthy.
  destruct (String.eqb_spec (st_url s) "") as [He|Hne]; cbn [negb fst snd].
  - split; [intros _; reflexivity|].
    split; [intros H; contradiction|].
    split; [split; [cbn; discriminate | intros H; contradiction]|].
    split; [rewrite orb_true_r; discriminate | intros [_ H]; contradiction].
  - split; [intros H; contradiction|].
    split; [intros _; repeat split; reflexivity|].
    split; [split; [intros _; exact Hne | intros _; reflexivity]|].
    rewrite orb_false_r.
    split; [intros H; split; [exact H | exact Hne] | intros [H _]; exact H].
Qed.

Lemma steps_fired_append (fired : list AnalysisStep) (s : State) :
  let s' := fold_left (fun st step => stepTimerFired step st) fired s in
  analysisSteps s' = (analysisSteps s ++ fired)%list
  /\ result s' = result s /\ analyzing s' = analyzing s
  /\ error s' = error s /\ user s' = user s
  /\ currentTestimonial s' = currentTestimonial s.
Proof.
  revert s. induction fired as [|step fired IH]; intros s; cbn [fold_left].
  - rewrite app_nil_r. repeat split; reflexivity.
  - destruct (IH (stepTimerFired step s)) as (Ha & Hr & Hz & He & Hu & Hc).
    cbv zeta. rewrite Ha, Hr, Hz, He, Hu, Hc.
    change (analysisSteps (stepTimerFired step s))
      with (analysisSteps s ++ [step])%list.
    rewrite <- app_assoc. repeat split; reflexivity.
Qed.

(** X3: The step timers are started with strictly growing delays, and once
    they have all fired, in that order, the progress panel lists exactly
    the eight steps in the order of the source, and is shown. *)
Theorem all_step_timers_fill_the_panel (s : State) :
  st_url s <> "" ->
  let s1 := fst (analyzeWebsite s) in
  let s2 := fold_left (fun st step => stepTimerFired step st) steps s1 in
  analysisSteps s2 = steps
  /\ stepsPanelShown s2 = true
  /\ result s2 = None
  /\ StronglySorted Z.lt
       (flat_map (fun e => match timerDelay e with Some ms => [ms] | None => [] end)
          (snd (analyzeWebsite s))).
Proof.
  intros Hne. cbv zeta.
  pose proof (analyzeWebsite_accepts s Hne) as Hacc.
  assert (Heff : snd (analyzeWebsite s)
                 = (map (fun step => SetTimeout (delay step) step) steps
                    ++ [PostAnalyze (st_url s)])%list)
    by (rewrite Hacc; reflexivity).
  assert (Han : analyzing (fst (analyzeWebsite s)) = true)
    by (rewrite Hacc; reflexivity).
  assert (Hres : result (fst (analyzeWebsite s)) = None)
    by (rewrite Hacc; reflexivity).
  assert (Hst : analysisSteps (fst (analyzeWebsite s)) = [])
    by (rewrite Hacc; reflexivity).
  clear Hacc.
  destruct (steps_fired_append steps (fst (analyzeWebsite s)))
    as (Ha & Hr & Hz & _).
  cbv zeta in Ha, Hr, Hz.
  rewrite Hst in Ha. cbn [app] in Ha.
  split; [exact Ha|]. split.
  - unfold stepsPanelShown. rewrite Hz, Han, Ha. reflexivity.
  - split; [rewrite Hr; exact Hres|].
    rewrite Heff. cbn.
    repeat (constructor; [|repeat (constructor; try lia)]).
    constructor.
Qed.

Lemma all_step_timers_fill_the_panel_witness :
  let s := handle (ChangeUrl "example.com") (initial None) in
  let s1 := fst (analyzeWebsite s) in
  let s2 := fold_left (fun st step => stepTimerFired step st) steps s1 in
  analysisSteps s2 = steps
  /\ stepsPanelShown s2 = true
  /\ result s2 = None
  /\ StronglySorted Z.lt
       (flat_map (fun e => match timerDelay e with Some ms => [ms] | None => [] end)
          (snd (analyzeWebsite s))).
Proof.
  apply (all_step_timers_fill_the_panel
           (handle (ChangeUrl "example.com") (initial None))).
  simpl. discriminate.
Defined.

(** X4: A failed analysis never shows a result or the progress panel: after
    analyzeWebsite, any step timers and a failure, result is null,
    analyzing is false and the error is set; step timers that fire late
    refill analysisSteps but the panel stays hidden. *)
Theorem failed_analysis_shows_nothing
  (s : State) (fired late : list AnalysisStep) (message : string)
  (notOk : bool) :
  st_url s <> "" ->
  let s1 := fst (analyzeWebsite s) in
  let s2 := fold_left (fun st step => stepTimerFired step st) fired s1 in
  let s3 := analyzeWebsiteSettled
              (if notOk then ResponseNotOk message else Rejected message) s2 in
  let s4 := fold_left (fun st step => stepTimerFired step st) late s3 in
  result s3 = None /\ analyzing s3 = false /\ error s3 = Some message
  /\ analysisSteps s3 = []
  /\ render_result s3 = JS.Normal None
  /\ analysisSteps s4 = late
  /\ stepsPanelShown s4 = false
  /\ render_result s4 = JS.Normal None.
Proof.
  intros Hne. cbv zeta.
  assert (Hres : result (fst (analyzeWebsite s)) = None)
    by (rewrite (analyzeWebsite_accepts s Hne); reflexivity).
  destruct (steps_fired_append fired (fst (analyzeWebsite s)))
    as (_ & Hr & _).
  cbv zeta in Hr. rewrite Hres in Hr.
  set (s2 := fold_left (fun st step => stepTimerFired step st) fired
               (fst (analyzeWebsite s))) in *.
  set (s3 := analyzeWebsiteSettled
               (if notOk then ResponseNotOk message else Rejected message) s2).
  assert (H3 : result s3 = None /\ analyzing s3 = false
               /\ error s3 = Some message /\ analysisSteps s3 = []).
  { unfold s3. destruct notOk; (split; [exact Hr|]); repeat split;
      reflexivity. }
  destruct H3 as (H3r & H3a & H3e & H3s).
  destruct (steps_fired_append late s3) as (Ha & Hr4 & Hz4 & _).
  cbv zeta in Ha, Hr4, Hz4.
  repeat split; try assumption.
  - unfold render_result. rewrite H3r. reflexivity.
  - rewrite Ha, H3s. reflexivity.
  - unfold stepsPanelShown. rewrite Hz4, H3a. reflexivity.
  - unfold render_result. rewrite Hr4, H3r. reflexivity.
Qed.

Lemma failed_analysis_shows_nothing_witness :
  let s := handle (ChangeUrl "example.com") (initial None) in
  let s1 := fst (analyzeWebsite s) in
  let s2 := fold_left (fun st step => stepTimerFired step st) [] s1 in
  let s3 := analyzeWebsiteSettled
              (if false then ResponseNotOk "Failed to fetch"
               else Rejected "Failed to fetch") s2 in
  let s4 := fold_left (fun st step => stepTimerFired step st) steps s3 in
  result s3 = None /\ analyzing s3 = false
  /\ error s3 = Some "Failed to fetch"
  /\ analysisSteps s3 = []
  /\ render_result s3 = JS.Normal None
  /\ analysisSteps s4 = steps
  /\ stepsPanelShown s4 = false
  /\ render_result s4 = JS.Normal None.
Proof.
  apply (failed_analysis_shows_nothing
           (handle (ChangeUrl "example.com") (initial None))
           [] steps "Failed to fetch" false).
  simpl. discriminate.
Defined.

Lemma handle_keeps_scrolled (ev : event) (s : State) :
  hasScrolledToResults s = true ->
  hasScrolledToResults (handle ev s) = true.
Proof.
  intros H. destruct ev; cbn [handle]; try exact H.
  - unfold analyzeWebsite. destruct (negb (JS.truthy (st_url s))); exact H.
  - destruct r; exact H.
  - unfold handleScroll. rewrite H.
    destruct (result s); [destruct (user s)|]; exact H.
Qed.

(** X5: The scroll prompt opens the sign-in modal at most once in the life of
    the component: a scroll can open it only for a signed-out viewer with
    a result, and once it has, no later scroll changes anything, whatever
    was done in between. *)
Theorem scroll_prompt_opens_once
  (s : State) (evs : list event) (past : bool) :
  handleScroll true s <> s ->
  let opened := handleScroll true s in
  user s = None /\ result s <> None
  /\ showAuthModal opened = true
  /\ hasScrolledToResults opened = true
  /\ handleScroll past (run_events evs opened) = run_events evs opened.
Proof.
  intros Hch. cbv zeta.
  assert (Hs : user s = None /\ result s <> None
               /\ hasScrolledToResults s = false).
  { unfold handleScroll in Hch.
    destruct (result s), (user s), (hasScrolledToResults s);
      try (exfalso; apply Hch; reflexivity).
    repeat split; discriminate. }
  destruct Hs as (Hu & Hr & Hf).
  assert (Ho : showAuthModal (handleScroll true s) = true
               /\ hasScrolledToResults (handleScroll true s) = true).
  { unfold handleScroll. rewrite Hu, Hf.
    destruct (result s); [split; reflexivity | congruence]. }
  destruct Ho as (Hm & Hh).
  repeat split; try assumption.
  assert (Hrun : forall l st, hasScrolledToResults st = true ->
                   hasScrolledToResults (run_events l st) = true).
  { induction l as [|ev l IH]; intros st Hst; cbn; [exact Hst|].
    apply IH, handle_keeps_scrolled, Hst. }
  specialize (Hrun evs _ Hh).
  generalize dependent (run_events evs (handleScroll true s)).
  intros st Hst. unfold handleScroll. rewrite Hst.
  destruct (result st); [destruct (user st)|]; reflexivity.
Qed.

Lemma scroll_prompt_opens_once_witness :
  let opened := handleScroll true sampleState in
  user sampleState = None /\ result sampleState <> None
  /\ showAuthModal opened = true
  /\ hasScrolledToResults opened = true
  /\ handleScroll true (run_events [CloseAuthModal; ClickLogout] opened)
     = run_events [CloseAuthModal; ClickLogout] opened.
Proof.
  apply (scroll_prompt_opens_once sampleState [CloseAuthModal; ClickLogout]
           true).
  intros H. apply (f_equal showAuthModal) in H. discriminate H.
Defined.

Lemma strict_eq_zero (x : JS.number) :
  JS.strict_eq x (JS.of_Z 0) = true -> exists sg, x = S754_zero sg.
Proof.
  change (JS.of_Z 0) with (S754_zero false). unfold JS.strict_eq, SFeqb.
  destruct x as [sg|sg| |sg m e]; cbv beta iota delta [SFcompare];
    try discriminate.
  - intros _. exists sg. reflexivity.
  - destruct sg; discriminate.
  - destruct sg; discriminate.
Qed.

(** X6: A score of exactly 0, the one that raises the critical banner, is
    always painted in the red band, its threat status is DANGER or High
    Risk, and the recommendation gets the darkest background. *)
Theorem zero_score_is_shown_as_danger (r : AnalysisResult) :
  JS.strict_eq (trustScore r) (JS.of_Z 0) = true ->
  getScoreColor (trustScore r) = "from-red-500 to-rose-600"
  /\ (threatStatus r = "DANGER" \/ threatStatus r = "High Risk")
  /\ recommendationBackground r = "bg-gradient-to-r from-red-900 to-rose-900".
Proof.
  intros Hz. unfold threatStatus, recommendationBackground. rewrite Hz.
  destruct (strict_eq_zero _ Hz) as [sg Hx]. rewrite Hx.
  split; [destruct sg; reflexivity|]. split; [|reflexivity].
  destruct (String.eqb (scamProbability r) "CRITICAL - 100%");
    [left; reflexivity | right; destruct sg; reflexivity].
Qed.

Lemma zero_score_is_shown_as_danger_witness :
  let r := { sampleResult with trustScore := JS.of_Z 0 } in
  getScoreColor (trustScore r) = "from-red-500 to-rose-600"
  /\ (threatStatus r = "DANGER" \/ threatStatus r = "High Risk")
  /\ recommendationBackground r = "bg-gradient-to-r from-red-900 to-rose-900".
Proof.
  apply (zero_score_is_shown_as_danger
           { sampleResult with trustScore := JS.of_Z 0 }).
  reflexivity.
Defined.

(** X7: Unless the scam probability is the critical one, the threat status
    names the band the score is painted in: Clean with green, Caution
    with yellow, High Risk with red. *)
Theorem threat_status_follows_score_colour (r : AnalysisResult) :
  scamProbability r <> "CRITICAL - 100%" ->
  (threatStatus r = "Clean"
   <-> getScoreColor (trustScore r) = "from-emerald-500 to-green-600")
  /\ (threatStatus r = "Caution"
      <-> getScoreColor (trustScore r) = "from-yellow-500 to-orange-500")
  /\ (threatStatus r = "High Risk"
      <-> getScoreColor (trustScore r) = "from-red-500 to-rose-600").
Proof.
  intros Hp. unfold threatStatus, getScoreColor.
  destruct (String.eqb_spec (scamProbability r) "CRITICAL - 100%");
    [contradiction|].
  destruct (JS.ge (trustScore r) (JS.of_Z 70));
    [|destruct (JS.ge (trustScore r) (JS.of_Z 40))];
    repeat split; intros; try discriminate; reflexivity.
Qed.

Lemma threat_status_follows_score_colour_witness :
  (threatStatus sampleResult = "Clean"
   <-> getScoreColor (trustScore sampleResult)
       = "from-emerald-500 to-green-600")
  /\ (threatStatus sampleResult = "Caution"
      <-> getScoreColor (trustScore sampleResult)
          = "from-yellow-500 to-orange-500")
  /\ (threatStatus sampleResult = "High Risk"
      <-> getScoreColor (trustScore sampleResult)
          = "from-red-500 to-rose-600").
Proof.
  apply (threat_status_follows_score_colour sampleResult).
  simpl. discriminate.
Defined.

(** X8: Signing in through the modal closes it and lifts the overlay: the
    section rendered next has no overlay, an empty container class and
    otherwise the details the signed-out viewer had under the overlay;
    the parent is told once. *)
Theorem auth_success_lifts_overlay
  (s : State) (r : AnalysisResult) (authUser : User) :
  result s = Some r ->
  0 <= currentTestimonial s < 4 ->
  let s' := fst (handleAuthSuccess authUser s) in
  snd (handleAuthSuccess authUser s) = [NotifyAuthSuccess authUser]
  /\ showAuthModal s' = false
  /\ user s' = Some authUser
  /\ exists (rs : ResultSection) (t : Testimonial),
       render_result s' = JS.Normal (Some rs)
       /\ d_overlay (disclosure rs) = false
       /\ details_className rs = ""
       /\ details rs = detailBlocks (Some authUser) r t (currentTestimonial s)
       /\ detailBlocks None r t (currentTestimonial s)
          = SignInOverlay :: details rs.
Proof.
  intros Hr Hi. cbv zeta.
  split; [reflexivity|]. split; [reflexivity|]. split; [reflexivity|].
  destruct (testimonial_at _ Hi) as [t Ht].
  unfold render_result.
  change (result (fst (handleAuthSuccess authUser s))) with (result s).
  change (currentTestimonial (fst (handleAuthSuccess authUser s)))
    with (currentTestimonial s).
  change (user (fst (handleAuthSuccess authUser s))) with (Some authUser).
  rewrite Hr, Ht.
  eexists. exists t. split; [reflexivity|].
  cbn [disclosure d_overlay details details_className].
  rewrite detailBlocks_overlay. repeat split; reflexivity.
Qed.

Lemma auth_success_lifts_overlay_witness :
  let u := (Build_User "Ada" "ada@example.com") in
  let s' := fst (handleAuthSuccess u sampleState) in
  snd (handleAuthSuccess u sampleState) = [NotifyAuthSuccess u]
  /\ showAuthModal s' = false
  /\ user s' = Some u
  /\ exists (rs : ResultSection) (t : Testimonial),
       render_result s' = JS.Normal (Some rs)
       /\ d_overlay (disclosure rs) = false
       /\ details_className rs = ""
       /\ details rs
          = detailBlocks (Some u) sampleResult t
              (currentTestimonial sampleState)
       /\ detailBlocks None sampleResult t (currentTestimonial sampleState)
          = SignInOverlay :: details rs.
Proof.
  apply (auth_success_lifts_overlay sampleState sampleResult
           (Build_User "Ada" "ada@example.com")).
  - reflexivity.
  - change (0 <= 0 < 4). lia.
Defined.

End LegitimacyRuns.

(** ** JobAnalyzer: the button, the timers, logout, the recommendation *)

Section JobRuns.

Import JobAnalyzer.

Lemma stepTimers_delays (l : list string) (index ms : Z) (step : string) :
  In (SetTimeout ms step) (stepTimers index l) ->
  index * 500 <= ms <= (index + Z.of_nat (List.length l) - 1) * 500
  /\ In step l.
Proof.
  revert index. induction l as [|x l IH]; intros index Hin; cbn in Hin.
  - destruct Hin.
  - destruct Hin as [Heq|Hin].
    + inversion Heq; subst. cbn [List.length]. split; [lia | left; reflexivity].
    + destruct (IH _ Hin) as [Hb Hs]. cbn [List.length].
      split; [lia | right; exact Hs].
Qed.

Lemma stepTimers_steps (l : list string) (index : Z) :
  flat_map (fun e => match e with SetTimeout _ step => [step] | _ => [] end)
    (stepTimers index l) = l
  /\ existsb is_request (stepTimers index l) = false.
Proof.
  revert index. induction l as [|x l IH]; intros index; cbn.
  - split; reflexivity.
  - destruct (IH (index + 1)) as [H1 H2]. rewrite H1, H2. split; reflexivity.
Qed.

Lemma analyzeJob_effects (s : State) :
  analyzeDisabled s = false ->
  snd (analyzeJob s)
  = (stepTimers 0 steps ++ [PostAnalyzeJob (formData s)])%list.
Proof.
  unfold analyzeDisabled, analyzeJob. intros Hd.
  apply orb_false_elim in Hd. destruct Hd as [_ Hg]. rewrite Hg.
  reflexivity.
Qed.

(** X9: The Analyze button and the guard of analyzeJob agree: an enabled
    button always dispatches the request (exactly one, carrying the form,
    after the step timers) and never produces the validation error. *)
Theorem enabled_analyze_button_dispatches (s : State) :
  analyzeDisabled s = false ->
  snd (analyzeJob s)
  = (stepTimers 0 steps ++ [PostAnalyzeJob (formData s)])%list
  /\ List.length (filter is_request (snd (analyzeJob s))) = 1%nat
  /\ error (fst (analyzeJob s)) = None
  /\ analyzing (fst (analyzeJob s)) = true
  /\ result (fst (analyzeJob s)) = None
  /\ hasScrolledToResults (fst (analyzeJob s)) = false
  /\ formData (fst (analyzeJob s)) = formData s.
Proof.
  unfold analyzeDisabled, analyzeJob. intros Hd.
  apply orb_false_elim in Hd. destruct Hd as [_ Hg]. rewrite Hg.
  repeat split; reflexivity.
Qed.

Lemma enabled_analyze_button_dispatches_witness :
  let s := { initial None with
             formData := { emptyForm with job_url := "https://jobs.example/1" } } in
  snd (analyzeJob s)
  = (stepTimers 0 steps ++ [PostAnalyzeJob (formData s)])%list
  /\ List.length (filter is_request (snd (analyzeJob s))) = 1%nat
  /\ error (fst (analyzeJob s)) = None
  /\ analyzing (fst (analyzeJob s)) = true
  /\ result (fst (analyzeJob s)) = None
  /\ hasScrolledToResults (fst (analyzeJob s)) = false
  /\ formData (fst (analyzeJob s)) = formData s.
Proof.
  apply (enabled_analyze_button_dispatches
           { initial None with
             formData := { emptyForm with job_url := "https://jobs.example/1" } }).
  reflexivity.
Defined.

(** X10: Every step timer analyzeJob starts has a delay that is a multiple of
    500 ms from 0 on and is shorter than the wait between the response and
    the result (steps.length * 500 + 500), and the timers carry the steps
    in order: all steps are on screen before the result is. *)
Theorem step_timers_fire_before_result (s : State) :
  (forall ms step,
      In (SetTimeout ms step) (snd (analyzeJob s)) ->
      0 <= ms < resultWait /\ ms mod 500 = 0 /\ In step steps)
  /\ (analyzeDisabled s = false ->
      flat_map (fun e => match e with SetTimeout _ step => [step] | _ => [] end)
        (snd (analyzeJob s)) = steps).
Proof.
  split.
  - intros ms step Hin. unfold analyzeJob in Hin.
    destruct (negb (JS.truthy (job_url (formData s)))
              && negb (JS.truthy (job_description (formData s))));
      cbn [snd] in Hin; [destruct Hin|].
    apply in_app_or in Hin. destruct Hin as [Hin|[Heq|[]]]; [|discriminate].
    assert (Hm : forall l i ms' st,
               In (SetTimeout ms' st) (stepTimers i l) -> ms' mod 500 = 0).
    { induction l as [|x l IH]; intros i ms' st H; cbn in H; [destruct H|].
      destruct H as [Heq|H]; [inversion Heq; apply Z.mod_mul; lia | eauto]. }
    pose proof (Hm _ _ _ _ Hin) as Hmod.
    apply stepTimers_delays in Hin. destruct Hin as [Hb Hs].
    unfold resultWait. repeat split; try assumption; lia.
  - intros Hd.
    rewrite (analyzeJob_effects s Hd), flat_map_app.
    destruct (stepTimers_steps steps 0) as [Hs _]. rewrite Hs.
    reflexivity.
Qed.

(** X11: Logging out clears the form, so the next analyzeJob is rejected with
    the validation error and sends nothing; nothing of the old result is
    rendered. *)
Theorem logout_then_analyze_is_rejected (s : State) :
  let s1 := fst (handleLogout s) in
  snd (handleLogout s) = [RemoveStoredSession; NotifyLogout]
  /\ user s1 = None
  /\ render_result s1 = None
  /\ analyzeDisabled s1 = true
  /\ snd (analyzeJob s1) = []
  /\ error (fst (analyzeJob s1))
     = Some "Please provide either a job URL or job description"
  /\ result (fst (analyzeJob s1)) = None.
Proof.
  cbv zeta. repeat split; try reflexivity.
  unfold analyzeDisabled.
  change (formData (fst (handleLogout s))) with emptyForm.
  apply orb_true_r.
Qed.

(** X12: The recommendation card is always drawn in the band of the score
    colour, and the DO NOT list (trustScore < 40) appears only in the red
    band. *)
Theorem recommendation_band_matches_score (r : JobAnalysisResult) :
  (recommendationBackground r = "bg-gradient-to-r from-green-700 to-emerald-700"
   <-> getScoreColor (trustScore r) = "from-emerald-500 to-green-600")
  /\ (recommendationBackground r = "bg-gradient-to-r from-yellow-700 to-orange-700"
      <-> getScoreColor (trustScore r) = "from-yellow-500 to-orange-500")
  /\ (recommendationBackground r = "bg-gradient-to-r from-red-800 to-rose-800"
      <-> getScoreColor (trustScore r) = "from-red-500 to-rose-600")
  /\ (JS.lt (trustScore r) (JS.of_Z 40) = true ->
      getScoreColor (trustScore r) = "from-red-500 to-rose-600"
      /\ recommendationBackground r
         = "bg-gradient-to-r from-red-800 to-rose-800").
Proof.
  unfold recommendationBackground, getScoreColor.
  destruct (JS.ge (trustScore r) (JS.of_Z 70)) eqn:H70.
  - pose proof (ge_70_ge_40 _ H70) as H40.
    repeat split; intros; try discriminate; try reflexivity;
      apply lt_not_ge in H; congruence.
  - destruct (JS.ge (trustScore r) (JS.of_Z 40)) eqn:H40;
      repeat split; intros; try discriminate; try reflexivity;
      apply lt_not_ge in H; congruence.
Qed.

End JobRuns.

(** ** CommentsSection: the form over time, the domain, the stars *)

Section CommentRuns.

Import CommentsSection.

Variable URL_hostname : string -> JS.completion string.

Lemma reachable_rating (url : string) (s : State) :
  reachable URL_hostname url s -> 1 <= rating (formData s) <= 5.
Proof.
  induction 1 as [|s ev Hs IH Hoff].
  - change (1 <= 5 <= 5). lia.
  - apply handle_keeps_rating; assumption.
Qed.

(** X13: In every reachable state the experience of the form is one of
    positive, neutral and negative, so every posted comment falls into one
    of the three buckets of the summary. *)
Theorem experience_always_a_category (url : string) (s : State) :
  reachable URL_hostname url s ->
  In (experience (formData s)) experienceButtons
  /\ (forall body target,
        In (PostComment body target) (snd (handleSubmit url s)) ->
        In (experience body) experienceButtons).
Proof.
  intros Hreach.
  assert (He : In (experience (formData s)) experienceButtons).
  { induction Hreach as [|s ev Hs IH Hoff].
    - left. reflexivity.
    - destruct ev; cbn [handle fst]; try exact IH.
      + destruct Hoff as [_ Hin]. exact Hin.
      + unfold handleSubmit.
        destruct (negb (JS.truthy (user_name (formData s)))
                  || negb (JS.truthy (comment (formData s)))); exact IH.
      + destruct r; cbn [handleSubmitSettled fst]; try exact IH.
        left. reflexivity.
      + destruct r; exact IH. }
  split; [exact He|].
  intros body target. unfold handleSubmit.
  destruct (negb (JS.truthy (user_name (formData s)))
            || negb (JS.truthy (comment (formData s))));
    cbn [snd]; intros Hin.
  - destruct Hin.
  - destruct Hin as [Heq|[]]. inversion Heq; subst. exact He.
Qed.

Lemma handleSubmit_dispatch (url : string) (s : State) :
  user_name (formData s) <> "" ->
  comment (formData s) <> "" ->
  handleSubmit url s
  = ({ s with submitting := true }, [PostComment (formData s) url]).
Proof.
  intros Hn Hc. unfold handleSubmit.
  apply truthy_nonempty in Hn. apply truthy_nonempty in Hc.
  rewrite Hn, Hc. reflexivity.
Qed.

(** X14: No double submission: after handleSubmit has sent the POST the submit
    button is disabled until the request settles; every outcome re-enables
    submitting, and after a success the form is empty again, so submitting
    once more sends nothing. *)
Theorem no_double_submit (url : string) (s : State) (r : settled unit) :
  user_name (formData s) <> "" ->
  comment (formData s) <> "" ->
  let s1 := fst (handleSubmit url s) in
  let s2 := fst (handleSubmitSettled URL_hostname url r s1) in
  submitDisabled s1 = true
  /\ ~ offered s1 ClickSubmit
  /\ submitting s2 = false
  /\ (forall data,
        r = ResponseOk data ->
        formData s2 = emptyForm
        /\ showForm s2 = false
        /\ submitDisabled s2 = true
        /\ handleSubmit url s2 = (s2, [])).
Proof.
  intros Hn Hc. cbv zeta.
  rewrite (handleSubmit_dispatch url s Hn Hc). cbn [fst].
  split; [reflexivity|].
  split; [intros [_ Hd]; discriminate Hd|].
  split; [destruct r; reflexivity|].
  intros data ->. repeat split; reflexivity.
Qed.

(** X15: A failed submission loses nothing: the form keeps what was typed and
    stays open, and no request follows; a successful one is followed by
    exactly the reload of the comments of the same url. *)
Theorem failed_submit_keeps_the_form (url : string) (s : State)
  (r : settled unit) :
  let s2 := fst (handleSubmitSettled URL_hostname url r s) in
  let reqs := snd (handleSubmitSettled URL_hostname url r s) in
  ((forall data, r <> ResponseOk data) ->
   formData s2 = formData s /\ showForm s2 = showForm s
   /\ comments s2 = comments s /\ stats s2 = stats s /\ reqs = [])
  /\ (forall data, r = ResponseOk data ->
      reqs = loadComments URL_hostname url
      /\ reqs = mounted URL_hostname url
      /\ comments s2 = comments s /\ stats s2 = stats s).
Proof.
  cbv zeta. split.
  - intros Hf. destruct r as [data| |]; [destruct (Hf data eq_refl)| |];
      repeat split; reflexivity.
  - intros data ->. repeat split; reflexivity.
Qed.

(** X16: A url typed without a scheme is looked up as its https:// form: the
    comments are loaded from, and a helpful vote is posted to, the same
    domain either way; and a url whose parsing throws sends no request. *)
Theorem bare_url_is_treated_as_https (url : string) (commentId : Z) :
  prefix "http" url = false ->
  domainOf URL_hostname url = domainOf URL_hostname ("https://" ++ url)
  /\ loadComments URL_hostname url
     = loadComments URL_hostname ("https://" ++ url)
  /\ markHelpful URL_hostname url commentId
     = markHelpful URL_hostname ("https://" ++ url) commentId
  /\ (forall e, URL_hostname ("https://" ++ url) = JS.Throw e ->
      loadComments URL_hostname url = []
      /\ markHelpful URL_hostname url commentId = []).
Proof.
  intros Hp.
  assert (Hd : domainOf URL_hostname url
               = domainOf URL_hostname ("https://" ++ url)).
  { unfold domainOf. rewrite Hp.
    change (prefix "http" ("https://" ++ url)) with true. reflexivity. }
  unfold loadComments, markHelpful. rewrite Hd.
  repeat split; try reflexivity;
    unfold domainOf; change (prefix "http" ("https://" ++ url)) with true;
    cbv iota; rewrite H; reflexivity.
Qed.

End CommentRuns.

Lemma prefix_append (pat rest : string) : prefix pat (pat ++ rest) = true.
Proof.
  induction pat as [|c pat IH]; cbn; [destruct rest; reflexivity|].
  destruct (ascii_dec c c) as [_|Hn]; [exact IH | congruence].
Qed.

Lemma substring_skip_append (pat rest : string) :
  substring (String.length pat)
    (String.length (pat ++ rest) - String.length pat) (pat ++ rest) = rest.
Proof.
  induction pat as [|c pat IH]; cbn.
  - rewrite Nat.sub_0_r.
    induction rest as [|c rest IHr]; cbn; [reflexivity|].
    rewrite IHr. reflexivity.
  - exact IH.
Qed.

Lemma replace_first_eq (pat rep str : string) :
  CommentsSection.replace_first pat rep str
  = if prefix pat str then
      rep ++ substring (String.length pat)
               (String.length str - String.length pat) str
    else
      match str with
      | EmptyString => EmptyString
      | String c str' =>
          String c (CommentsSection.replace_first pat rep str')
      end.
Proof. destruct str; reflexivity. Qed.

Lemma replace_first_prefix (pat rep rest : string) :
  CommentsSection.replace_first pat rep (pat ++ rest) = rep ++ rest.
Proof.
  rewrite replace_first_eq, prefix_append, substring_skip_append.
  reflexivity.
Qed.

(** X17: String.prototype.replace with a string pattern replaces the first
    occurrence only: a hostname that starts with the pattern loses it
    once (www.www.x gives www.x), and a string without the pattern is
    returned as it is. *)
Theorem replace_first_replaces_one_occurrence (pat rep : string) :
  (forall rest, CommentsSection.replace_first pat rep (pat ++ rest)
                = rep ++ rest)
  /\ (forall rest, CommentsSection.replace_first pat "" (pat ++ pat ++ rest)
                   = pat ++ rest)
  /\ (forall str, String.index 0 pat str = None ->
                  CommentsSection.replace_first pat rep str = str).
Proof.
  split; [apply replace_first_prefix|].
  split; [intros rest; apply (replace_first_prefix pat "")|].
  induction str as [|c str IH]; intros Hi.
  - rewrite replace_first_eq. destruct pat; [discriminate Hi | reflexivity].
  - rewrite replace_first_eq.
    cbn [String.index] in Hi.
    destruct (prefix pat (String c str)); [discriminate|].
    destruct (String.index 0 pat str); [discriminate|].
    rewrite IH; reflexivity.
Qed.

(** X18: The stars shown: the form fills exactly [rating] of its five stars in
    every reachable state, and a listed comment fills its rating cut to
    the range 0..5, never more than the five stars there are. *)
Theorem stars_show_the_rating
  (URL_hostname : string -> JS.completion string) (url : string)
  (s : CommentsSection.State) (c : CommentsSection.Comment) :
  CommentsSection.reachable URL_hostname url s ->
  CommentsSection.filled (CommentsSection.formStars s)
  = CommentsSection.rating (CommentsSection.formData s)
  /\ CommentsSection.filled (CommentsSection.commentStars c)
     = Z.max 0 (Z.min 5 (CommentsSection.c_rating c))
  /\ List.length (CommentsSection.commentStars c) = 5%nat.
Proof.
  intros Hreach.
  pose proof (reachable_rating URL_hostname url s Hreach) as Hr.
  unfold CommentsSection.filled, CommentsSection.formStars,
    CommentsSection.commentStars, CommentsSection.starButtons.
  cbn [map seq filter].
  split; [|split; [|reflexivity]].
  - assert (Hc : CommentsSection.rating (CommentsSection.formData s) = 1
                 \/ CommentsSection.rating (CommentsSection.formData s) = 2
                 \/ CommentsSection.rating (CommentsSection.formData s) = 3
                 \/ CommentsSection.rating (CommentsSection.formData s) = 4
                 \/ CommentsSection.rating (CommentsSection.formData s) = 5)
      by lia.
    destruct Hc as [-> | [-> | [-> | [-> | ->]]]]; reflexivity.
  - change (Z.of_nat 0) with 0. change (Z.of_nat 1) with 1.
    change (Z.of_nat 2) with 2. change (Z.of_nat 3) with 3.
    change (Z.of_nat 4) with 4.
    destruct (Z.ltb_spec 0 (CommentsSection.c_rating c));
      destruct (Z.ltb_spec 1 (CommentsSection.c_rating c));
      destruct (Z.ltb_spec 2 (CommentsSection.c_rating c));
      destruct (Z.ltb_spec 3 (CommentsSection.c_rating c));
      destruct (Z.ltb_spec 4 (CommentsSection.c_rating c));
      cbn [filter List.length Z.of_nat]; lia.
Qed.

Section CommentWitnesses.

Import CommentsSection.

Lemma experience_always_a_category_witness :
  let s := fst (handle (fun h => JS.Normal h) "example.com" (ClickExperience "negative")
             (fst (handle (fun h => JS.Normal h) "example.com" ToggleForm initial))) in
  In (experience (formData s)) experienceButtons
  /\ (forall body target,
        In (PostComment body target) (snd (handleSubmit "example.com" s)) ->
        In (experience body) experienceButtons).
Proof.
  apply (experience_always_a_category (fun h => JS.Normal h) "example.com").
  apply reachable_handle.
  - apply reachable_handle.
    + apply reachable_initial.
    + exact I.
  - split; [reflexivity | simpl; tauto].
Defined.

Lemma no_double_submit_witness :
  let s := { initial with
             showForm := true;
             formData := { emptyForm with user_name := "Ada";
                                          comment := "Paid on time" } } in
  let s1 := fst (handleSubmit "example.com" s) in
  let s2 := fst (handleSubmitSettled (fun h => JS.Normal h) "example.com" (ResponseOk tt) s1) in
  submitDisabled s1 = true
  /\ ~ offered s1 ClickSubmit
  /\ submitting s2 = false
  /\ (forall data,
        ResponseOk tt = ResponseOk data ->
        formData s2 = emptyForm
        /\ showForm s2 = false
        /\ submitDisabled s2 = true
        /\ handleSubmit "example.com" s2 = (s2, [])).
Proof.
  apply (no_double_submit (fun h => JS.Normal h) "example.com"
           { initial with
             showForm := true;
             formData := { emptyForm with user_name := "Ada";
                                          comment := "Paid on time" } }
           (ResponseOk tt)).
  - simpl. discriminate.
  - simpl. discriminate.
Defined.

Lemma bare_url_is_treated_as_https_witness :
  domainOf (fun h => JS.Normal h) "example.com" = domainOf (fun h => JS.Normal h) ("https://" ++ "example.com")
  /\ loadComments (fun h => JS.Normal h) "example.com"
     = loadComments (fun h => JS.Normal h) ("https://" ++ "example.com")
  /\ markHelpful (fun h => JS.Normal h) "example.com" 7
     = markHelpful (fun h => JS.Normal h) ("https://" ++ "example.com") 7
  /\ (forall e, (fun h => JS.Normal h) ("https://" ++ "example.com") = JS.Throw e ->
      loadComments (fun h => JS.Normal h) "example.com" = []
      /\ markHelpful (fun h => JS.Normal h) "example.com" 7 = []).
Proof.
  apply (bare_url_is_treated_as_https (fun h => JS.Normal h) "example.com" 7).
  reflexivity.
Defined.

Lemma stars_show_the_rating_witness :
  let s := fst (handle (fun h => JS.Normal h) "example.com" (ClickStar 2)
             (fst (handle (fun h => JS.Normal h) "example.com" ToggleForm initial))) in
  let c := {| id := 1; c_user_name := "Ada"; c_rating := 9;
              c_experience := "positive"; c_comment := "Paid on time";
              c_was_scammed := false; timestamp := "2025-01-01T00:00:00Z";
              helpful_count := 0 |} in
  filled (formStars s) = rating (formData s)
  /\ filled (commentStars c) = Z.max 0 (Z.min 5 (c_rating c))
  /\ List.length (commentStars c) = 5%nat.
Proof.
  apply (stars_show_the_rating (fun h => JS.Normal h) "example.com").
  apply reachable_handle.
  - apply reachable_handle.
    + apply reachable_initial.
    + exact I.
  - split; [reflexivity | simpl; tauto].
Defined.

End CommentWitnesses.

(** X19: The domain the comments are keyed by drops one leading www. from the
    hostname of the url. *)
Theorem domain_drops_leading_www
  (URL_hostname : string -> JS.completion string) (url host : string) :
  URL_hostname (if prefix "http" url then url else "https://" ++ url)
  = JS.Normal ("www." ++ host) ->
  CommentsSection.domainOf URL_hostname url = JS.Normal host
  /\ CommentsSection.loadComments URL_hostname url
     = [CommentsSection.GetComments host].
Proof.
  intros Hh. unfold CommentsSection.loadComments, CommentsSection.domainOf.
  rewrite Hh. cbn [JS.bind].
  rewrite (replace_first_prefix "www." "" host). split; reflexivity.
Qed.

Lemma domain_drops_leading_www_witness :
  CommentsSection.domainOf
    (fun href => JS.Normal (CommentsSection.replace_first "https://" "" href))
    "www.www.example.com"
  = JS.Normal "www.example.com"
  /\ CommentsSection.loadComments
       (fun href => JS.Normal (CommentsSection.replace_first "https://" "" href))
       "www.www.example.com"
     = [CommentsSection.GetComments "www.example.com"].
Proof.
  apply (domain_drops_leading_www
           (fun href => JS.Normal (CommentsSection.replace_first "https://" "" href))
           "www.www.example.com" "www.example.com").
  reflexivity.
Defined.

(** ** DynamicStats: rotation and refresh *)

Section StatsRuns.

Import DynamicStats.

Lemma rotate_unpaused (st : State) :
  testimonialPaused st = false ->
  currentTestimonial (rotateTestimonial st)
  = Z.rem (currentTestimonial st + 1) 3
  /\ testimonialPaused (rotateTestimonial st) = false.
Proof.
  intros H. unfold rotateTestimonial. rewrite H. split; [reflexivity | exact H].
Qed.

(** X20: While not paused, the timer walks through the testimonials in a
    cycle: after k ticks the index is (i + k) mod 3, so three ticks come
    back to the same testimonial and each of the three is reached within
    two ticks. *)
Theorem rotation_cycles_through_all (s : State) (k : nat) :
  testimonialPaused s = false ->
  0 <= currentTestimonial s < 3 ->
  currentTestimonial (ticks k s) = (currentTestimonial s + Z.of_nat k) mod 3
  /\ testimonialPaused (ticks k s) = false
  /\ currentTestimonial (ticks 3 s) = currentTestimonial s
  /\ (forall j, 0 <= j < 3 ->
        exists n, (n < 3)%nat /\ currentTestimonial (ticks n s) = j).
Proof.
  intros Hp Hi.
  assert (Hk : forall n,
             currentTestimonial (ticks n s)
             = (currentTestimonial s + Z.of_nat n) mod 3
             /\ testimonialPaused (ticks n s) = false).
  { induction n as [|n [IHc IHp]].
    - cbn. rewrite Z.add_0_r, Z.mod_small by lia. split; [reflexivity | exact Hp].
    - change (ticks (S n) s) with (rotateTestimonial (ticks n s)).
      destruct (rotate_unpaused (ticks n s) IHp) as [Hc' Hp'].
      rewrite Hc', Hp'. split; [|reflexivity].
      rewrite IHc.
      pose proof (Z.mod_pos_bound (currentTestimonial s + Z.of_nat n) 3).
      rewrite Z.rem_mod_nonneg by lia.
      rewrite Nat2Z.inj_succ, Zplus_mod_idemp_l. f_equal. lia. }
  destruct (Hk k) as [Hc Hq].
  split; [exact Hc|]. split; [exact Hq|]. split.
  - destruct (Hk 3%nat) as [H3 _]. rewrite H3.
    change (Z.of_nat 3) with (1 * 3).
    rewrite Z_mod_plus_full. apply Z.mod_small. lia.
  - intros j Hj.
    exists (Z.to_nat ((j - currentTestimonial s) mod 3)).
    pose proof (Z.mod_pos_bound (j - currentTestimonial s) 3).
    split; [lia|].
    destruct (Hk (Z.to_nat ((j - currentTestimonial s) mod 3))) as [Hn _].
    rewrite Hn, Z2Nat.id by lia.
    rewrite Zplus_mod_idemp_r.
    replace (currentTestimonial s + (j - currentTestimonial s)) with j by lia.
    apply Z.mod_small. lia.
Qed.

Lemma rotation_cycles_through_all_witness :
  currentTestimonial (ticks 5 initial)
  = (currentTestimonial initial + Z.of_nat 5) mod 3
  /\ testimonialPaused (ticks 5 initial) = false
  /\ currentTestimonial (ticks 3 initial) = currentTestimonial initial
  /\ (forall j, 0 <= j < 3 ->
        exists n, (n < 3)%nat /\ currentTestimonial (ticks n initial) = j).
Proof.
  apply (rotation_cycles_through_all initial 5).
  - reflexivity.
  - change (0 <= 0 < 3). lia.
Defined.

(** X21: Hovering or focusing the testimonial card stops the rotation: after
    the pointer has entered, timer ticks change nothing, and when it leaves
    the card shows the testimonial it showed before. *)
Theorem hover_pauses_rotation (s : State) (k : nat) (byFocus : bool) :
  let paused := handle (if byFocus then Focus else MouseEnter) s in
  ticks k paused = paused
  /\ currentTestimonial
       (handle (if byFocus then Blur else MouseLeave) (ticks k paused))
     = currentTestimonial s
  /\ testimonialPaused
       (handle (if byFocus then Blur else MouseLeave) (ticks k paused))
     = false.
Proof.
  cbv zeta.
  assert (Hp : forall st, testimonialPaused st = true -> ticks k st = st).
  { intros st Hst. induction k as [|n IH]; [reflexivity|].
    change (ticks (S n) st) with (rotateTestimonial (ticks n st)).
    rewrite IH. unfold rotateTestimonial. rewrite Hst. reflexivity. }
  rewrite Hp by (destruct byFocus; reflexivity).
  destruct byFocus; repeat split; reflexivity.
Qed.

(** X22: A refresh never blanks the numbers: load(false) leaves [loading]
    alone, a failed refresh keeps the stats and the time of the last good
    load and only records the error, and a successful one shows the new
    data; the initial load ends with [loading] false whatever happens. *)
Theorem refresh_keeps_last_good_stats
  (s : State) (r : settled Stats) (now : Z) (key : StatKey) :
  let s1 := loadSettled false r now (loadBegin false s) in
  loading s1 = loading s
  /\ refreshing s1 = false
  /\ refreshing (loadBegin false s) = true
  /\ currentTestimonial s1 = currentTestimonial s
  /\ (forall data, r = ResponseOk data ->
        shownStat key s1 = stat key data /\ lastUpdated s1 = Some now
        /\ error s1 = None)
  /\ ((forall data, r <> ResponseOk data) ->
        stats s1 = stats s /\ shownStat key s1 = shownStat key s
        /\ lastUpdated s1 = lastUpdated s /\ error s1 <> None)
  /\ loading (loadSettled true r now (loadBegin true s)) = false.
Proof.
  cbv zeta. unfold loadSettled, loadBegin.
  destruct r as [data|message|message]; repeat split; try reflexivity;
    intros; try discriminate; try congruence.
  - inversion H; subst. reflexivity.
  - exfalso. apply (H data). reflexivity.
  - exfalso. apply (H data). reflexivity.
  - exfalso. apply (H data). reflexivity.
  - exfalso. apply (H data). reflexivity.
Qed.

End StatsRuns.

(** ** AuthModal: validation and the outcome of a submission *)

Lemma trimStart_whitespace (s : string) :
  forallb JS.is_whitespace (list_ascii_of_string (JS.trimStart s))
  = forallb JS.is_whitespace (list_ascii_of_string s).
Proof.
  induction s as [|c s IH]; [reflexivity|].
  cbn [JS.trimStart]. destruct (JS.is_whitespace c) eqn:Hc.
  - rewrite IH. cbn [list_ascii_of_string forallb]. rewrite Hc. reflexivity.
  - reflexivity.
Qed.

Lemma trimEnd_empty (s : string) :
  JS.trimEnd s = ""
  <-> forallb JS.is_whitespace (list_ascii_of_string s) = true.
Proof.
  induction s as [|c s IH]; [split; reflexivity|].
  cbn [JS.trimEnd list_ascii_of_string forallb].
  rewrite andb_true_iff, <- IH.
  destruct (JS.trimEnd s) eqn:Ht.
  - destruct (JS.is_whitespace c); split; intros H.
    + split; reflexivity.
    + reflexivity.
    + discriminate H.
    + destruct H as [H _]. discriminate H.
  - split; intros H.
    + discriminate H.
    + destruct H as [_ H]. discriminate H.
Qed.

(** [s.trim()] is the empty string exactly when every character of [s] is
    white space. *)
Lemma trim_empty (s : string) :
  JS.trim s = ""
  <-> forallb JS.is_whitespace (list_ascii_of_string s) = true.
Proof.
  unfold JS.trim. rewrite trimEnd_empty, trimStart_whitespace. reflexivity.
Qed.

Lemma truthy_trim (s : string) :
  JS.truthy (JS.trim s)
  = negb (forallb JS.is_whitespace (list_ascii_of_string s)).
Proof.
  unfold JS.truthy. f_equal.
  destruct (forallb JS.is_whitespace (list_ascii_of_string s)) eqn:H.
  - apply trim_empty in H. rewrite H. reflexivity.
  - apply String.eqb_neq. intros Ht. apply trim_empty in Ht. congruence.
Qed.

(** [!password || password.length < 6] is the negation of
    [6 <= password.length]. *)
Lemma password_check (p : string) :
  negb (JS.truthy p) || (Z.of_nat (String.length p) <? 6)
  = negb (6 <=? Z.of_nat (String.length p)).
Proof.
  rewrite Z.leb_antisym, negb_involutive.
  destruct p; reflexivity.
Qed.

Section AuthRuns.

Import AuthModal.

(** X23: The modal sends a request exactly when the form passes the validation:
    in sign-up mode the name has a character that is not white space, the
    email has one, and the password has at least six characters.  Then it
    sends exactly one request, to the endpoint of the mode, with the form
    as it is (not trimmed), and it is loading.  Otherwise nothing is sent,
    an error message is shown, and the form and the loading flag are
    untouched. *)
Theorem submit_posts_iff_form_valid (s : State) :
  let valid :=
    (negb (isSignUp s) || negb (blank (name (formData s))))
    && negb (blank (email (formData s)))
    && (6 <=? Z.of_nat (String.length (password (formData s)))) in
  (valid = true ->
     handleSubmit s
     = ({ s with loading := true; error := "" },
        [PostAuth (if isSignUp s then "/auth/signup" else "/auth/login")
           (formData s)]))
  /\ (valid = false ->
        snd (handleSubmit s) = []
        /\ JS.truthy (error (fst (handleSubmit s))) = true
        /\ formData (fst (handleSubmit s)) = formData s
        /\ loading (fst (handleSubmit s)) = loading s
        /\ isSignUp (fst (handleSubmit s)) = isSignUp s).
Proof.
  unfold blank, handleSubmit. cbv zeta.
  rewrite !truthy_trim, !negb_involutive, password_check.
  destruct (isSignUp s) eqn:Hs;
    destruct (forallb JS.is_whitespace
                (list_ascii_of_string (name (formData s))));
    destruct (forallb JS.is_whitespace
                (list_ascii_of_string (email (formData s))));
    destruct (6 <=? Z.of_nat (String.length (password (formData s))));
    cbn [andb orb negb];
    (split; [ intros H; try discriminate H; reflexivity
            | intros H; try discriminate H; repeat split;
              first [reflexivity | exact Hs] ]).
Qed.


(** X25: A sign-up that is answered with [needs_verification] leaves the modal
    in sign-in mode with the email kept and the password cleared, so that
    pressing the button again sends nothing and asks for a password. *)
Theorem verification_then_resubmit_is_rejected
  (s : State) (data : AuthData) :
  existsb is_post (snd (handleSubmit s)) = true ->
  needs_verification data = true ->
  let sent := fst (handleSubmit s) in
  let back := fst (handleSubmitSettled (formData s) (Body true data) sent) in
  isSignUp back = false
  /\ email (formData back) = email (formData s)
  /\ handleSubmit back
     = ({ back with error := "Password must be at least 6 characters" }, []).
Proof.
  intros Hpost Hv. cbv zeta.
  unfold handleSubmitSettled. rewrite Hv. cbn [fst].
  split; [reflexivity|]. split; [reflexivity|].
  unfold handleSubmit in Hpost |- *.
  destruct (isSignUp s && negb (JS.truthy (JS.trim (name (formData s)))));
    [discriminate Hpost|].
  destruct (negb (JS.truthy (JS.trim (email (formData s))))) eqn:He;
    [discriminate Hpost|].
  destruct (negb (JS.truthy (password (formData s)))
            || (Z.of_nat (String.length (password (formData s))) <? 6));
    [discriminate Hpost|].
  cbn [fst].
  change (isSignUp _) with false at 1.
  cbn [andb].
  change (email (formData _)) with (email (formData s)) at 1.
  rewrite He. reflexivity.
Qed.

(** X26: Switching between sign-in and sign-up empties the form, so a submit
    right after the switch sends nothing: in sign-up mode the name is asked
    for, in sign-in mode the email. *)
Theorem toggle_then_submit_sends_nothing (s : State) :
  snd (handleSubmit (toggleMode s)) = []
  /\ error (fst (handleSubmit (toggleMode s)))
     = (if isSignUp s then "Please enter your email"
        else "Please enter your name")
  /\ toggleMode (toggleMode s)
     = { s with error := ""; formData := emptyForm }.
Proof.
  unfold handleSubmit, toggleMode.
  destruct s as [su f l e]. destruct su; repeat split; reflexivity.
Qed.

Lemma verification_then_resubmit_is_rejected_witness :
  let s := { initial with
             isSignUp := true;
             formData := {| name := "Ada"; email := "ada@example.com";
                            password := "secret1" |} } in
  let data := {| needs_verification := true; token := None;
                 data_user := Build_User "Ada" "ada@example.com";
                 detail := None |} in
  let sent := fst (handleSubmit s) in
  let back := fst (handleSubmitSettled (formData s) (Body true data) sent) in
  isSignUp back = false
  /\ email (formData back) = email (formData s)
  /\ handleSubmit back
     = ({ back with error := "Password must be at least 6 characters" }, []).
Proof.
  apply (verification_then_resubmit_is_rejected
           { initial with
             isSignUp := true;
             formData := {| name := "Ada"; email := "ada@example.com";
                            password := "secret1" |} }
           {| needs_verification := true; token := None;
              data_user := Build_User "Ada" "ada@example.com";
              detail := None |}).
  - reflexivity.
  - reflexivity.
Defined.

End AuthRuns.

(** ** App: the user shared between the shell and the analyzer *)

Section AppRuns.

Import App.

(** X27: The Logout button of the header clears the stored session and the
    shell's user but leaves the mounted analyzer as it is: its effect on
    [sharedUser] finds neither a user nor a stored session, so its own
    user cell and its result stay, and a signed-in analyzer still renders
    its result without the sign-in overlay.  The analyzer's own Logout
    button clears its user and its result, and the overlay is back. *)
Theorem header_logout_keeps_details_open
  (p : Page) (u : User) (r : LegitimacyAnalyzer.AnalysisResult)
  (t : LegitimacyAnalyzer.Testimonial) (active : Z) :
  LegitimacyAnalyzer.user (analyzer p) = Some u ->
  analyzer (headerLogout p) = analyzer p
  /\ user (shell (headerLogout p)) = None
  /\ storage (headerLogout p) = clearedStorage
  /\ LegitimacyAnalyzer.overlayShown
       (LegitimacyAnalyzer.detailBlocks
          (LegitimacyAnalyzer.user (analyzer (headerLogout p))) r t active)
     = false
  /\ LegitimacyAnalyzer.user (analyzer (analyzerLogout p)) = None
  /\ LegitimacyAnalyzer.result (analyzer (analyzerLogout p)) = None
  /\ user (shell (analyzerLogout p)) = None
  /\ storage (analyzerLogout p) = clearedStorage
  /\ LegitimacyAnalyzer.overlayShown
       (LegitimacyAnalyzer.detailBlocks
          (LegitimacyAnalyzer.user (analyzer (analyzerLogout p))) r t active)
     = true.
Proof.
  intros Hu.
  split; [reflexivity|]. split; [reflexivity|]. split; [reflexivity|].
  rewrite !detailBlocks_overlay.
  change (analyzer (headerLogout p)) with (analyzer p). rewrite Hu.
  repeat split; reflexivity.
Qed.

(** X28: A sign-in through the analyzer's modal reaches the shell: both user
    cells hold the user, the modal is closed, and the stored session is
    the one a later mount check sends for verification; after either
    Logout button a mount check sends nothing. *)
Theorem analyzer_sign_in_reaches_shell
  (token user_json : string) (authUser : User) (p : Page) :
  token <> "" -> user_json <> "" ->
  let q := analyzerAuthSuccess token user_json authUser p in
  user (shell q) = Some authUser
  /\ LegitimacyAnalyzer.user (analyzer q) = Some authUser
  /\ LegitimacyAnalyzer.showAuthModal (analyzer q) = false
  /\ checkAuth (storage q) initial = (initial, [VerifyToken token])
  /\ checkAuth (storage (headerLogout q)) initial
     = ({ initial with authChecked := true }, [])
  /\ checkAuth (storage (analyzerLogout q)) initial
     = ({ initial with authChecked := true }, []).
Proof.
  intros Ht Hj. cbv zeta.
  split; [reflexivity|]. split; [reflexivity|]. split; [reflexivity|].
  split; [|split; reflexivity].
  unfold checkAuth, storedSession.
  change (auth_token (storage (analyzerAuthSuccess token user_json authUser p)))
    with (Some token).
  change (stored_user (storage (analyzerAuthSuccess token user_json authUser p)))
    with (Some user_json).
  unfold JS.truthy.
  apply String.eqb_neq in Ht. apply String.eqb_neq in Hj.
  rewrite Ht, Hj. reflexivity.
Qed.

(** X29: The check on mount asks the server exactly when a token and a user
    are both stored and non-empty; with or without a request, and whatever
    the answer, the shell ends with [authChecked] set, and its user is the
    verified one or null. *)
Theorem mount_check_always_completes (st : Storage) (s : State) :
  ((exists token, snd (checkAuth st s) = [VerifyToken token])
   <-> (exists t j, auth_token st = Some t /\ stored_user st = Some j
                    /\ t <> "" /\ j <> ""))
  /\ (snd (checkAuth st s) = [] -> authChecked (fst (checkAuth st s)) = true)
  /\ (forall verified notOk,
        authChecked (snd (checkAuthSettled verified notOk st s)) = true
        /\ user (snd (checkAuthSettled verified notOk st s)) = verified
        /\ (fst (checkAuthSettled verified notOk st s) <> st ->
            verified = None /\ notOk = true)).
Proof.
  split; [|split].
  - unfold checkAuth, storedSession, JS.truthy.
    destruct (auth_token st) as [t|]; [destruct (stored_user st) as [j|]|].
    + destruct (String.eqb_spec t ""), (String.eqb_spec j "");
        cbn [negb andb snd]; split.
      all: try (intros [tok H]; discriminate H).
      all: try (intros (t' & j' & Ht & Hj & Hnt & Hnj);
                injection Ht as <-; injection Hj as <-; contradiction).
      * intros _. exists t, j. repeat split; assumption.
      * intros _. exists t. reflexivity.
    + split.
      * intros [tok H]; discriminate H.
      * intros (t' & j' & _ & Hj & _). discriminate Hj.
    + split.
      * intros [tok H]; discriminate H.
      * intros (t' & j' & Ht & _). discriminate Ht.
  - unfold checkAuth. destruct (storedSession st).
    + intros H. discriminate H.
    + intros _. reflexivity.
  - intros verified notOk. unfold checkAuthSettled.
    destruct verified as [u|].
    + split; [reflexivity|]. split; [reflexivity|].
      intros H. contradiction H. reflexivity.
    + split; [reflexivity|]. split; [reflexivity|].
      intros H. split; [reflexivity|].
      destruct notOk; [reflexivity|]. contradiction H. reflexivity.
Qed.

Lemma header_logout_keeps_details_open_witness :
  let signedInPage :=
    analyzerAuthSuccess "tok" "{}" (Build_User "Ada" "ada@example.com")
      {| storage := clearedStorage; shell := initial;
         analyzer := LegitimacyAnalyzer.sampleState |} in
  let t := LegitimacyAnalyzer.Build_Testimonial "Saved me" "Sarah M." 5 in
  analyzer (headerLogout signedInPage) = analyzer signedInPage
  /\ user (shell (headerLogout signedInPage)) = None
  /\ storage (headerLogout signedInPage) = clearedStorage
  /\ LegitimacyAnalyzer.overlayShown
       (LegitimacyAnalyzer.detailBlocks
          (LegitimacyAnalyzer.user (analyzer (headerLogout signedInPage)))
          LegitimacyAnalyzer.sampleResult t 0)
     = false
  /\ LegitimacyAnalyzer.user (analyzer (analyzerLogout signedInPage)) = None
  /\ LegitimacyAnalyzer.result (analyzer (analyzerLogout signedInPage)) = None
  /\ user (shell (analyzerLogout signedInPage)) = None
  /\ storage (analyzerLogout signedInPage) = clearedStorage
  /\ LegitimacyAnalyzer.overlayShown
       (LegitimacyAnalyzer.detailBlocks
          (LegitimacyAnalyzer.user (analyzer (analyzerLogout signedInPage)))
          LegitimacyAnalyzer.sampleResult t 0)
     = true.
Proof.
  apply (header_logout_keeps_details_open
           (analyzerAuthSuccess "tok" "{}" (Build_User "Ada" "ada@example.com")
              {| storage := clearedStorage; shell := initial;
                 analyzer := LegitimacyAnalyzer.sampleState |})
           (Build_User "Ada" "ada@example.com")).
  reflexivity.
Defined.

Lemma analyzer_sign_in_reaches_shell_witness :
  let p := {| storage := clearedStorage; shell := initial;
              analyzer := LegitimacyAnalyzer.sampleState |} in
  let authUser := Build_User "Ada" "ada@example.com" in
  let q := analyzerAuthSuccess "tok" "{}" authUser p in
  user (shell q) = Some authUser
  /\ LegitimacyAnalyzer.user (analyzer q) = Some authUser
  /\ LegitimacyAnalyzer.showAuthModal (analyzer q) = false
  /\ checkAuth (storage q) initial = (initial, [VerifyToken "tok"])
  /\ checkAuth (storage (headerLogout q)) initial
     = ({ initial with authChecked := true }, [])
  /\ checkAuth (storage (analyzerLogout q)) initial
     = ({ initial with authChecked := true }, []).
Proof.
  apply (analyzer_sign_in_reaches_shell "tok" "{}"
           (Build_User "Ada" "ada@example.com")
           {| storage := clearedStorage; shell := initial;
              analyzer := LegitimacyAnalyzer.sampleState |}).
  - discriminate.
  - discriminate.
Defined.

End AppRuns.
